(** * msmtools.util.sorted_schur: a shallow embedding

    The module [src/msmtools/util/sorted_schur.py] holds four functions:
    [top_eigenvalues], [sorted_scipy_schur], [sorted_krylov_schur] and the
    dispatcher [sorted_schur].  Their own logic is control flow around
    numpy, scipy and SLEPc calls: which solver is called, what is checked
    after the call, which exception leaves the function, which names are
    looked up.  The embedding below keeps that logic as it is written and
    takes the numerical libraries as interfaces:

    - [NumOps]: the float64 / complex128 operations the module applies
      (np.abs, np.real, np.isnan, np.isclose, +, /, >);
    - [SciPy]: eigs, np.linalg.eigvals and scipy.linalg.schur;
    - [SLEPcLib]: the PETSc / SLEPc objects of the Krylov-Schur backend;
    - the module namespace, a finite map from global names to what they
      are bound to, through which every free name of the source that is
      neither imported on lines 1-2 nor a builtin is resolved.

    Line 50 of the source lacks a [+] between [str(m)] and the string
    literal that follows it, so the file as it stands does not parse and
    cannot be imported.  The four function bodies are embedded as they
    are written; the message of the raise of lines 50-51 is read as the
    concatenation the line is written to build, and no statement below
    that is about the module as shipped depends on its text. *)

From Stdlib Require Import ZArith List Ascii String Bool Floats.
From Stdlib Require Import Sorting.Sorted Permutation DecimalString Lia.
From stdpp Require Import gmap strings.
Import ListNotations.
Set Warnings "-inexact-float".
Open Scope string_scope.
Open Scope list_scope.
Open Scope Z_scope.

(** ** Exceptions and outcomes *)

(** The exception classes that leave the module.  [External] stands for
    whatever an external library raises inside one of its own calls
    (LinAlgError, ArpackNoConvergence, a PETSc error): the module never
    catches it, so only its origin is kept.  Of [OverflowError], raised
    when an index does not fit the integer type numpy indexes with, only
    the class is kept. *)
Inductive exn : Type :=
| ValueError (msg : string)
| TypeError (args : list string)
| NameError (name : string)
| UnboundLocalError (name : string)
| IndexError (msg : string)
| OverflowError
| AttributeError (attr : string)
| External (origin : string).

Inductive result (A : Type) : Type :=
| Ok (a : A)
| Raise (e : exn).
Arguments Ok {A} a.
Arguments Raise {A} e.

Definition bind {A B} (c : result A) (k : A -> result B) : result B :=
  match c with
  | Ok a => k a
  | Raise e => Raise e
  end.

Notation "'let!' x ':=' c 'in' k" := (bind c (fun x => k))
  (at level 10, x pattern, c at level 100, k at level 200).

(** The answer of an external call: a value, or a failure inside the
    library. *)
Inductive ext (A : Type) : Type :=
| Done (a : A)
| Fails (origin : string).
Arguments Done {A} a.
Arguments Fails {A} origin.

Definition call {A} (r : ext A) : result A :=
  match r with
  | Done a => Ok a
  | Fails o => Raise (External o)
  end.

(** A local variable that some branches leave unassigned is an [option];
    reading it while unassigned raises UnboundLocalError. *)
Definition load_local {A} (name : string) (v : option A) : result A :=
  match v with
  | Some a => Ok a
  | None => Raise (UnboundLocalError name)
  end.

(** ** Python and numpy sequence operations *)

(** [str(m)] for an int. *)
Definition str (m : Z) : string := NilZero.string_of_int (Z.to_int m).

(** The message of numpy's IndexError for index [i] on an axis of
    [size] entries. *)
Definition out_of_bounds_msg (i size : Z) : string :=
  ("index " ++ str i ++ " is out of bounds for axis 0 with size "
   ++ str size)%string.

(** The bounds of the 64-bit integer numpy indexes with. *)
Definition intp_min : Z := - 9223372036854775808.
Definition intp_max : Z := 9223372036854775807.

(** [a[i]] on a one-dimensional array: an index that does not fit 64
    bits raises OverflowError; a negative index counts from the end; an
    index outside the array raises IndexError. *)
Definition py_index {A} (a : list A) (i : Z) : result A :=
  if (i <? intp_min) || (intp_max <? i) then Raise OverflowError
  else
    let len := Z.of_nat (length a) in
    let j := if i <? 0 then i + len else i in
    if (j <? 0) || (len <=? j)
    then Raise (IndexError (out_of_bounds_msg i len))
    else match nth_error a (Z.to_nat j) with
         | Some x => Ok x
         | None => Raise (IndexError (out_of_bounds_msg i len))
         end.

(** [a[:k]]: the first [k] entries, or all but the last [-k] for a
    negative [k]; never raises. *)
Definition slice_to {A} (a : list A) (k : Z) : list A :=
  if k <? 0 then firstn (Z.to_nat (Z.of_nat (length a) + k)) a
  else firstn (Z.to_nat k) a.

(** [a[idx]] with an integer index array. *)
Fixpoint fancy_index {A} (a : list A) (idx : list nat) : result (list A) :=
  match idx with
  | [] => Ok []
  | i :: idx' =>
      match nth_error a i with
      | Some x => let! rest := fancy_index a idx' in Ok (x :: rest)
      | None =>
          Raise (IndexError
                   (out_of_bounds_msg (Z.of_nat i) (Z.of_nat (length a))))
      end
  end.

(** [range(n)]. *)
Definition py_range (n : Z) : list Z :=
  map Z.of_nat (seq 0 (Z.to_nat n)).

(** Sorting, as numpy's sort and argsort specify it: ascending under the
    comparison [lt].  Insertion from the right keeps equal keys in their
    original order; numpy's default introsort may order equal keys
    differently, which no statement below depends on. *)
Fixpoint insert_by {A} (lt : A -> A -> bool) (x : A) (l : list A) : list A :=
  match l with
  | [] => [x]
  | y :: l' => if lt y x then y :: insert_by lt x l' else x :: y :: l'
  end.

Definition sort_by {A} (lt : A -> A -> bool) (l : list A) : list A :=
  fold_right (insert_by lt) [] l.

(** ** The numerical interface *)

Class NumOps : Type := {
  float64 : Type;
  complex128 : Type;
  (** [a <= b] on float64; false as soon as one side is NaN. *)
  fle : float64 -> float64 -> bool;
  fadd : float64 -> float64 -> float64;
  fdiv : float64 -> float64 -> float64;
  f0 : float64;
  f1 : float64;
  f2 : float64;
  (** np.abs, np.real, np.imag on a complex scalar. *)
  cabs : complex128 -> float64;
  creal : complex128 -> float64;
  cimag : complex128 -> float64;
  (** the complex scalar a real one is cast to *)
  of_real : float64 -> complex128;
  (** np.isclose with its default tolerances *)
  isclose : complex128 -> complex128 -> bool;
}.

Section Numeric.
Context {num : NumOps}.

(** The IEEE comparisons other than [<=], written with [<=]:
    [a < b] is [a <= b] and not [b <= a]; [a == b] is [a <= b] and
    [b <= a]; a NaN is the only value with [x <= x] false. *)
Definition flt (a b : float64) : bool := fle a b && negb (fle b a).
Definition fgt (a b : float64) : bool := flt b a.
Definition feq (a b : float64) : bool := fle a b && fle b a.
Definition fisnan (x : float64) : bool := negb (fle x x).

(** np.isnan and np.isreal on a complex scalar. *)
Definition cisnan (c : complex128) : bool :=
  fisnan (creal c) || fisnan (cimag c).
Definition isreal (c : complex128) : bool := feq (cimag c) f0.

(** The order np.sort uses on complex values without NaN: by real
    part, then by imaginary part. *)
Definition clt (a b : complex128) : bool :=
  flt (creal a) (creal b)
  || (feq (creal a) (creal b) && flt (cimag a) (cimag b)).

Definition np_sort (a : list complex128) : list complex128 :=
  sort_by clt a.

(** np.argsort of a float array: the indices that sort it. *)
Definition argsort (keys : list float64) : list nat :=
  map snd
    (sort_by (fun p q : float64 * nat => flt (fst p) (fst q))
       (combine keys (seq 0 (length keys)))).

(** A two-dimensional real array, as its list of rows. *)
Definition matrix : Type := list (list float64).

(** [np.shape(P)[0]]. *)
Definition shape0 (P : matrix) : Z := Z.of_nat (length P).

(** ** scipy and numpy.linalg *)

Record SciPy : Type := {
  (** [eigs(P, k=k, which=z)], the eigenvalue half of its answer *)
  eigs : matrix -> Z -> string -> ext (list complex128);
  (** [np.linalg.eigvals(P)] *)
  eigvals : matrix -> ext (list complex128);
  (** [schur(P, sort=f)]: the triple (R, Q, sdim) *)
  schur_sort : matrix -> (complex128 -> bool) -> ext (matrix * matrix * Z);
  (** [schur(A, output='real')]: the pair (R, Q) *)
  schur_real : matrix -> ext (matrix * matrix);
}.

(** ** PETSc and SLEPc *)

Inductive eps_type : Type := KRYLOVSCHUR.
Inductive eps_which : Type := LARGEST_MAGNITUDE | LARGEST_REAL.

(** What [from petsc4py import PETSc] and [from slepc4py import SLEPc]
    give when they succeed.  The solver object [E] is mutated by its
    setters and by [solve]; here every call returns the object after the
    call. *)
Record SLEPcLib : Type := {
  petsc_mat : Type;
  eps : Type;
  mat_create : ext petsc_mat;
  create_dense : petsc_mat -> matrix -> ext petsc_mat;
  eps_create : ext eps;
  set_operators : eps -> petsc_mat -> ext eps;
  set_type : eps -> eps_type -> ext eps;
  set_dimensions : eps -> Z -> ext eps;
  set_which : eps -> eps_which -> ext eps;
  solve : eps -> ext eps;
  (** the [x.array] of every vector of [E.getInvariantSubspace()] *)
  get_invariant_subspace : eps -> ext (list (list complex128));
  get_converged : eps -> ext Z;
  get_eigenvalue : eps -> Z -> ext complex128;
  compute_error : eps -> Z -> ext float64;
}.

(** ** The module namespace *)

(** What a global name can be bound to. *)
Inductive gval : Type :=
| GModule (name : string)
| GFunction (name : string)
| GArray (A : matrix).

(** The globals of the module once its body has run: the two imports of
    lines 1-2 and the four functions it defines. *)
Definition module_globals : gmap string gval :=
  list_to_map
    [ ("np", GModule "numpy");
      ("schur", GFunction "scipy.linalg.schur");
      ("top_eigenvalues", GFunction "top_eigenvalues");
      ("sorted_scipy_schur", GFunction "sorted_scipy_schur");
      ("sorted_krylov_schur", GFunction "sorted_krylov_schur");
      ("sorted_schur", GFunction "sorted_schur") ].

(** The builtins the module reads. *)
Definition builtins : list string :=
  [ "str"; "range"; "list"; "ValueError"; "TypeError"; "ImportError" ].

(** Reading a name that is not a local: the globals, then the builtins,
    then NameError. *)
Definition load_global (G : gmap string gval) (x : string) : result gval :=
  match G !! x with
  | Some v => Ok v
  | None =>
      if existsb (String.eqb x) builtins then Ok (GFunction x)
      else Raise (NameError x)
  end.

(** ** Warnings *)

(** A computation that may emit warnings before it returns or raises:
    the messages passed to [warnings.warn], in order, and the outcome. *)
Definition eff (A : Type) : Type := (list string * result A)%type.

Definition eff_ret {A} (a : A) : eff A := ([], Ok a).
Definition eff_raise {A} (e : exn) : eff A := ([], Raise e).
Definition lift {A} (r : result A) : eff A := ([], r).
Definition eff_bind {A B} (c : eff A) (k : A -> eff B) : eff B :=
  match c with
  | (w, Ok a) => let (w', r) := k a in (w ++ w', r)
  | (w, Raise e) => (w, Raise e)
  end.

Notation "'let*' x ':=' c 'in' k" := (eff_bind c (fun x => k))
  (at level 10, x pattern, c at level 100, k at level 200).

(** [warnings.warn(msg)]: the name [warnings] is read first. *)
Definition warnings_warn (G : gmap string gval) (msg : string) : eff unit :=
  let* w := lift (load_global G "warnings") in
  match w with
  | GModule "warnings" => ([msg], Ok tt)
  | _ => eff_raise (AttributeError "warn")
  end.

(** ** Values that cross the dispatcher *)

Inductive pyobj : Type :=
| ObjMatrix (A : matrix)
| ObjBasis (X : list (list complex128))
| ObjCArray (a : list complex128)
| ObjFArray (a : list float64).

(** [R, Q = t] for a tuple [t]. *)
Definition unpack2 (t : list pyobj) : result (pyobj * pyobj) :=
  match t with
  | [a; b] => Ok (a, b)
  | [] | [_] =>
      Raise (ValueError
               ("not enough values to unpack (expected 2, got "
                ++ str (Z.of_nat (length t)) ++ ")")%string)
  | _ => Raise (ValueError "too many values to unpack (expected 2)")
  end.

Section Functions.
Variable sp : SciPy.

Definition nan_top_msg : string :=
  "Some of the top m eigenvalues of P are NaN!".
Definition nan_all_msg : string := "Some eigenvalues of P are NaN!".
Definition split_msg (m : Z) : string :=
  ("Clustering into " ++ str m
   ++ " clusters will split conjugate eigenvalues! "
   ++ " Request one cluster more or less.")%string.
Definition mismatch_msg (m sdim : Z) : string :=
  (str m ++ " dominant eigenvalues (associated with the "
   ++ "same amount of clusters) were requested, but only "
   ++ str sdim ++ " were sorted up in the Schur form!")%string.

(** Lines 28-44 of [top_eigenvalues]: the local [top_eigenvals] after
    the if/else, [None] when no branch assigned it. *)
Definition select_top (P : matrix) (m : Z) (z : string)
  : result (option (list complex128)) :=
  let n := shape0 P in
  if m + 1 <? n - 1 then
    let! top_eigenvals := call (eigs sp P (m + 1) z) in
    if existsb cisnan top_eigenvals then Raise (ValueError nan_top_msg)
    else Ok (Some top_eigenvals)
  else
    let! eigenvals := call (eigvals sp P) in
    if existsb cisnan eigenvals then Raise (ValueError nan_all_msg)
    else if String.eqb z "LM" then
      let idx := argsort (map cabs eigenvals) in
      let! sorted_eigenvals := fancy_index eigenvals idx in
      Ok (Some (slice_to (rev sorted_eigenvals) (m + 1)))
    else if String.eqb z "LR" then
      let! again := call (eigvals sp P) in
      let sorted_eigenvals := np_sort again in
      Ok (Some (slice_to (rev sorted_eigenvals) (m + 1)))
    else Ok None.

(** Lines 45-53 of [top_eigenvalues]. *)
Definition check_boundary (m : Z) (top : option (list complex128))
  : result (list complex128) :=
  let! top_eigenvals := load_local "top_eigenvals" top in
  let! eigenval_in := py_index top_eigenvals (m - 1) in
  let! eigenval_out := py_index top_eigenvals m in
  if isclose eigenval_in eigenval_out then Raise (ValueError (split_msg m))
  else Ok top_eigenvals.

Definition top_eigenvalues (P : matrix) (m : Z) (z : string)
  : result (list complex128) :=
  let! top := select_top P m z in
  check_boundary m top.

(** Lines 93-98 of [sorted_scipy_schur]: the check on [sdim]. *)
Definition check_sdim (m : Z) (sorted : option (matrix * matrix * Z))
  : result (matrix * matrix) :=
  let! (R, Q, sdim) := load_local "sdim" sorted in
  if negb (sdim =? m) then Raise (ValueError (mismatch_msg m sdim))
  else Ok (R, Q).

Definition sorted_scipy_schur (P : matrix) (m : Z) (z : string)
  : result (matrix * matrix) :=
  let! top_eigenvals := top_eigenvalues P m z in
  let! eigenval_in := py_index top_eigenvals (m - 1) in
  let! eigenval_out := py_index top_eigenvals m in
  let! sorted :=
    if String.eqb z "LM" then
      let cutoff :=
        fdiv (fadd (cabs eigenval_in) (cabs eigenval_out)) f2 in
      let! r := call (schur_sort sp P (fun x => fgt (cabs x) cutoff)) in
      Ok (Some r)
    else if String.eqb z "LR" then
      let cutoff :=
        fdiv (fadd (creal eigenval_in) (creal eigenval_out)) f2 in
      let! r := call (schur_sort sp P (fun x => fgt (creal x) cutoff)) in
      Ok (Some r)
    else Ok None in
  check_sdim m sorted.

(** ** The Krylov-Schur backend *)

(** [None] when petsc4py or slepc4py is not installed. *)
Variable slepc4py : option SLEPcLib.
(** The globals the functions run in. *)
Variable G : gmap string gval.

Definition not_real_msg : list string :=
  [ "The orthonormal basis of the subspace returned by Krylov-Schur is not real!";
    "G-PCCA needs real basis vectors to work." ].
Definition oversize_msg : string :=
  ("The size of the orthonormal basis of the subspace returned by Krylov-Schur "
   ++ "is to large. The excess is cut off, but it can't be garanteed that this is sane!")%string.
Definition nconv_msg (nconv m : Z) : string :=
  ("The number of converged eigenpairs is " ++ str nconv ++ ", but " ++ str m
   ++ " clusters were requested. They should be the same!")%string.

(** [EPS.Type.KRYLOVSCHUR], once the name [EPS] has been read. *)
Definition krylovschur_of (cls : gval) : result eps_type :=
  match cls with
  | GFunction "slepc4py.SLEPc.EPS" => Ok KRYLOVSCHUR
  | _ => Raise (AttributeError "Type")
  end.

(** Lines 130-159: build the solver and solve. *)
Definition krylov_setup (lib : SLEPcLib) (P : matrix) (m : Z) (z : string)
  : result (eps lib) :=
  let! M := call (mat_create lib) in
  let! M := call (create_dense lib M P) in
  let! E := call (eps_create lib) in
  let! E := call (set_operators lib E M) in
  let! cls := load_global G "EPS" in
  let! ty := krylovschur_of cls in
  let! E := call (set_type lib E ty) in
  let! E := call (set_dimensions lib E m) in
  let! E :=
    if String.eqb z "LM" then call (set_which lib E LARGEST_MAGNITUDE)
    else if String.eqb z "LR" then call (set_which lib E LARGEST_REAL)
    else Ok E in
  call (solve lib E).

(** [np.column_stack]: the vectors become the columns of [X], which is
    kept as its list of columns; an empty sequence is refused by numpy. *)
Definition column_stack (vecs : list (list complex128))
  : result (list (list complex128)) :=
  match vecs with
  | [] => Raise (External "numpy.column_stack")
  | _ => Ok vecs
  end.

(** [np.shape(X)[1]]. *)
Definition shape1 (X : list (list complex128)) : Z := Z.of_nat (length X).

(** Lines 190-198: the loop over [range(nconv)], appending to the two
    lists. *)
Fixpoint collect_eigenpairs (lib : SLEPcLib) (E : eps lib) (idx : list Z)
  (vals : list complex128) (errs : list float64)
  : result (list complex128 * list float64) :=
  match idx with
  | [] => Ok (vals, errs)
  | i :: idx' =>
      let! eigenval := call (get_eigenvalue lib E i) in
      let! eigenval_error := call (compute_error lib E i) in
      collect_eigenpairs lib E idx' (vals ++ [eigenval])
        (errs ++ [eigenval_error])
  end.

(** Lines 166-202: what is done with the solved [E]. *)
Definition krylov_collect (lib : SLEPcLib) (E : eps lib) (m : Z)
  : eff (list (list complex128) * list complex128 * list float64) :=
  let* vecs := lift (call (get_invariant_subspace lib E)) in
  let* X := lift (column_stack vecs) in
  if negb (forallb (forallb isreal) X) then eff_raise (TypeError not_real_msg)
  else
    let* _ :=
      if negb (shape1 X =? m) then warnings_warn G oversize_msg
      else eff_ret tt in
    let Q := slice_to X m in
    let* nconv := lift (call (get_converged lib E)) in
    let* _ :=
      if negb (nconv =? m) then warnings_warn G (nconv_msg nconv m)
      else eff_ret tt in
    let* (top_eigenvalues, top_eigenvalues_error) :=
      lift (collect_eigenpairs lib E (py_range nconv) [] []) in
    eff_ret (Q, top_eigenvalues, top_eigenvalues_error).

(** The handler of lines 126-128 builds its message with [str + err],
    which is itself a TypeError; its text names the class of [err],
    ModuleNotFoundError for a package that is not installed, between
    double quotes. *)
Definition double_quote : string := String "034"%char EmptyString.
Definition import_handler_msg : list string :=
  [ ("can only concatenate str (not " ++ double_quote
     ++ "ModuleNotFoundError" ++ double_quote ++ ") to str")%string ].

Definition sorted_krylov_schur (P : matrix) (m : Z) (z : string)
  : eff (list (list complex128) * list complex128 * list float64) :=
  match slepc4py with
  | None => eff_raise (TypeError import_handler_msg)
  | Some lib =>
      let* E := lift (krylov_setup lib P m z) in
      krylov_collect lib E m
  end.

(** ** The dispatcher *)

(** What [sort_real_schur(Q, R, z=np.inf, b=m)] would do if the name
    were bound to a function: the module defines none, so this is a
    parameter. *)
Variable sort_real_schur_impl
  : matrix -> matrix -> Z -> ext (matrix * matrix * list float64).

Definition as_array (v : gval) : result matrix :=
  match v with
  | GArray A => Ok A
  | _ => Raise (External "scipy.linalg.schur")
  end.

Definition as_callable (v : gval) : result unit :=
  match v with
  | GFunction _ => Ok tt
  | GModule _ => Raise (TypeError ["'module' object is not callable"])
  | GArray _ =>
      Raise (TypeError ["'numpy.ndarray' object is not callable"])
  end.

Definition inaccurate_msg : string :=
  "Reordering of Schur matrix was inaccurate!".

(** Lines 207-215. *)
Definition brandts (m : Z) : eff (pyobj * pyobj) :=
  let* f := lift (load_global G "schur") in
  let* Pbar := lift (load_global G "P_bar") in
  let* _ := lift (as_callable f) in
  let* A := lift (as_array Pbar) in
  let* (R, Q) := lift (call (schur_real sp A)) in
  let* g := lift (load_global G "sort_real_schur") in
  let* _ := lift (as_callable g) in
  let* (Q, R, ap) := lift (call (sort_real_schur_impl Q R m)) in
  let* _ :=
    if existsb (fun a => fgt a f1) ap then warnings_warn G inaccurate_msg
    else eff_ret tt in
  eff_ret (ObjMatrix R, ObjMatrix Q).

Definition sorted_schur (P : matrix) (m : Z) (method : string)
  : eff (pyobj * pyobj) :=
  if String.eqb method "brandts" then brandts m
  else if String.eqb method "scipy" then
    let* (R, Q) := lift (sorted_scipy_schur P m "LM") in
    let* (R, Q) := lift (unpack2 [ObjMatrix R; ObjMatrix Q]) in
    eff_ret (R, Q)
  else if String.eqb method "krylov" then
    let* (Q, vals, errs) := sorted_krylov_schur P m "LM" in
    let* (R, Q) :=
      lift (unpack2 [ObjBasis Q; ObjCArray vals; ObjFArray errs]) in
    eff_ret (R, Q)
  else eff_raise (ValueError ("Unknown method" ++ method)%string).
End Functions.
End Numeric.


(** ** The selection criterion, in the words of the specification *)

Section Criterion.
Context {num : NumOps}.

(** The score of an eigenvalue: its magnitude under 'LM', its real part
    under 'LR'. *)
Definition score (z : string) (e : complex128) : float64 :=
  if String.eqb z "LR" then creal e else cabs e.

(** The midpoint of the scores of the two boundary eigenvalues. *)
Definition cutoff (z : string) (e_in e_out : complex128) : float64 :=
  fdiv (fadd (score z e_in) (score z e_out)) f2.

(** The predicate handed to the Schur reordering. *)
Definition dominant (z : string) (c : float64) (x : complex128) : bool :=
  fgt (score z x) c.

(** Non-increasing scores from left to right. *)
Definition sorted_desc (z : string) (l : list complex128) : Prop :=
  StronglySorted (fun a b => fle (score z b) (score z a) = true) l.

(** The eigenvalues are well separated at the boundary: in every
    descending arrangement of the spectrum, np.isclose does not find the
    entries at 0-based positions [m-1] and [m] close. *)
Definition boundary_separated (z : string) (m : Z)
  (spectrum : list complex128) : Prop :=
  forall s a b,
    Permutation spectrum s -> sorted_desc z s ->
    nth_error s (Z.to_nat (m - 1)) = Some a ->
    nth_error s (Z.to_nat m) = Some b ->
    isclose a b = false.

(** No two entries of the list are close, whichever comes first. *)
Fixpoint well_separated (l : list complex128) : bool :=
  match l with
  | [] => true
  | a :: l' =>
      forallb (fun b => negb (isclose a b) && negb (isclose b a)) l'
      && well_separated l'
  end.

(** What the sorting arguments use of IEEE arithmetic: [<=] is
    transitive, and any two values that are not NaN are comparable. *)
Class NumLaws : Prop := {
  fle_trans : forall a b c : float64,
    fle a b = true -> fle b c = true -> fle a c = true;
  fle_total : forall a b : float64,
    fisnan a = false -> fisnan b = false ->
    fle a b = true \/ fle b a = true;
}.

(** The error names of the specification, by the raise site each one
    stands for. *)
Inductive spec_error : Type :=
| NumericalError
| ClusterBoundaryError
| ReorderMismatchError
| ComplexBasisError
| UnknownMethodError.

Inductive raised_as : exn -> spec_error -> Prop :=
| as_nan_top : raised_as (ValueError nan_top_msg) NumericalError
| as_nan_all : raised_as (ValueError nan_all_msg) NumericalError
| as_split m : raised_as (ValueError (split_msg m)) ClusterBoundaryError
| as_mismatch m sdim :
    raised_as (ValueError (mismatch_msg m sdim)) ReorderMismatchError
| as_not_real : raised_as (TypeError not_real_msg) ComplexBasisError
| as_unknown method :
    raised_as (ValueError ("Unknown method" ++ method)%string)
      UnknownMethodError.

(** The eigenvalues the solver of the chosen path computed: the partial
    solver when [m+1 < n-1], the dense one otherwise. *)
Definition solver_output (sp : SciPy) (P : matrix) (m : Z) (z : string)
  : ext (list complex128) :=
  if m + 1 <? shape0 P - 1 then eigs sp P (m + 1) z else eigvals sp P.

(** The partial solver answers the request for [m+1] eigenvalues of
    [P] with the [m+1] of largest score, in descending order: they are
    the head of a descending arrangement of the spectrum. *)
Definition partial_answer_sorted (sp : SciPy) (P : matrix) (m : Z)
  (z : string) (spectrum : list complex128) : Prop :=
  exists evs rest,
    eigs sp P (m + 1) z = Done evs
    /\ Z.of_nat (length evs) = m + 1
    /\ Permutation spectrum (evs ++ rest)
    /\ sorted_desc z (evs ++ rest).

(** The leading [k] by [k] block of a matrix. *)
Definition leading_block (k : nat) (R : matrix) : matrix :=
  firstn k (map (firstn k) R).

(** ** Solvers to run the module on

    A solver that is exact on diagonal matrices: the eigenvalues of a
    diagonal matrix are its diagonal entries, and reordering its Schur
    form is a permutation of the diagonal. *)

Definition diag (P : matrix) : list float64 :=
  map (fun i => nth i (nth i P []) f0) (seq 0 (length P)).

Definition diag_matrix (d : list float64) : matrix :=
  map (fun i =>
         map (fun j => if Nat.eqb i j then nth i d f0 else f0)
           (seq 0 (length d)))
    (seq 0 (length d)).

(** The permutation matrix whose column [j] is the unit vector
    [idx[j]]. *)
Definition perm_matrix (idx : list nat) : matrix :=
  map (fun i =>
         map (fun j => if Nat.eqb i (nth j idx 0%nat) then f1 else f0)
           (seq 0 (length idx)))
    (seq 0 (length idx)).

Definition diag_eigvals (P : matrix) : ext (list complex128) :=
  Done (map of_real (diag P)).

(** The [k] eigenvalues of largest score, in descending order. *)
Definition diag_eigs (P : matrix) (k : Z) (which : string)
  : ext (list complex128) :=
  if String.eqb which "LM" || String.eqb which "LR" then
    let s :=
      sort_by (fun a b => flt (score which a) (score which b))
        (map of_real (diag P)) in
    Done (firstn (Z.to_nat k) (rev s))
  else Fails "scipy.sparse.linalg.eigs".

Definition diag_schur_sort (P : matrix) (select : complex128 -> bool)
  : ext (matrix * matrix * Z) :=
  let d := diag P in
  let picked i := select (of_real (nth i d f0)) in
  let up := filter picked (seq 0 (length d)) in
  let down := filter (fun i => negb (picked i)) (seq 0 (length d)) in
  let idx := up ++ down in
  Done (diag_matrix (map (fun i => nth i d f0) idx), perm_matrix idx,
        Z.of_nat (length up)).

Definition diag_schur_real (P : matrix) : ext (matrix * matrix) :=
  Done (P, perm_matrix (seq 0 (length P))).

Definition diag_solver : SciPy :=
  {| eigs := diag_eigs;
     eigvals := diag_eigvals;
     schur_sort := diag_schur_sort;
     schur_real := diag_schur_real |}.

(** A scripted dense solver: it answers [np.linalg.eigvals] with the
    given spectrum, whatever the matrix. *)
Definition scripted_scipy (spectrum : list complex128) : SciPy :=
  {| eigs := fun _ _ _ => Fails "scipy.sparse.linalg.eigs";
     eigvals := fun _ => Done spectrum;
     schur_sort := fun _ _ => Fails "scipy.linalg.schur";
     schur_real := fun _ => Fails "scipy.linalg.schur" |}.

(** A scripted partial solver: it answers [eigs] with the given values,
    whatever the matrix, the count and the criterion. *)
Definition scripted_partial (vals : list complex128) : SciPy :=
  {| eigs := fun _ _ _ => Done vals;
     eigvals := fun _ => Fails "numpy.linalg.eigvals";
     schur_sort := fun _ _ => Fails "scipy.linalg.schur";
     schur_real := fun _ => Fails "scipy.linalg.schur" |}.

(** A scripted Krylov-Schur solver: every call succeeds, and the solved
    object hands out the basis, the count of converged eigenpairs and
    the eigenvalues it was built with. *)
Definition scripted_slepc (basis : list (list complex128)) (nconv : Z)
  (vals : list complex128) : SLEPcLib :=
  {| petsc_mat := matrix;
     eps := unit;
     mat_create := Done [];
     create_dense := fun _ P => Done P;
     eps_create := Done tt;
     set_operators := fun E _ => Done E;
     set_type := fun E _ => Done E;
     set_dimensions := fun E _ => Done E;
     set_which := fun E _ => Done E;
     solve := fun E => Done E;
     get_invariant_subspace := fun _ => Done basis;
     get_converged := fun _ => Done nconv;
     get_eigenvalue := fun _ i => Done (nth (Z.to_nat i) vals (of_real f0));
     compute_error := fun _ _ => Done f0 |}.

(** A reordering whose accuracy diagnostics are all 2.0. *)
Definition rough_reorder (Q R : matrix) (b : Z)
  : ext (matrix * matrix * list float64) :=
  Done (Q, R, map (fun _ => f2) R).

(** A reordering whose accuracy diagnostics are all zero. *)
Definition identity_reorder (Q R : matrix) (b : Z)
  : ext (matrix * matrix * list float64) :=
  Done (Q, R, map (fun _ => f0) R).
End Criterion.

(** ** IEEE binary64 as the numerical interface *)

(** IEEE binary64, with a complex number as its pair of parts.  The
    magnitude is infinite as soon as one part is, and is the absolute
    value of the other part when one part is zero, as C's hypot returns
    it; elsewhere the larger part is factored out before squaring, so
    that the result overflows or underflows only where hypot does, and
    agrees with hypot up to rounding in the last places. *)
Definition ieee_cabs (c : float * float) : float :=
  let a := abs (fst c) in
  let b := abs (snd c) in
  if (a =? infinity)%float || (b =? infinity)%float then infinity
  else if (b =? 0)%float then a
  else if (a =? 0)%float then b
  else
    let s := if (a <? b)%float then b else a in
    (s * sqrt ((a / s) * (a / s) + (b / s) * (b / s)))%float.

Definition ieee_isfinite (x : float) : bool := (abs x <? infinity)%float.

(** np.isclose(a, b) with rtol=1e-05 and atol=1e-08. *)
Definition ieee_isclose (a b : float * float) : bool :=
  let d := (fst a - fst b, snd a - snd b)%float in
  ((ieee_cabs d <=? 1e-8 + 1e-5 * ieee_cabs b)%float
   && ieee_isfinite (fst b) && ieee_isfinite (snd b))
  || ((fst a =? fst b)%float && (snd a =? snd b)%float).

Definition ieee : NumOps :=
  {| float64 := float;
     complex128 := float * float;
     fle := PrimFloat.leb;
     fadd := PrimFloat.add;
     fdiv := PrimFloat.div;
     f0 := 0%float;
     f1 := 1%float;
     f2 := 2%float;
     cabs := ieee_cabs;
     creal := fst;
     cimag := snd;
     of_real := fun x => (x, 0%float);
     isclose := ieee_isclose |}.

(** The order of binary64 values as an order on triples of integers:
    sign class, then exponent, then mantissa, the last two negated for
    negative numbers. *)
Definition rank (x : spec_float) : Z * Z * Z :=
  match x with
  | S754_zero _ => (0, 0, 0)
  | S754_infinity true => (-2, 0, 0)
  | S754_infinity false => (2, 0, 0)
  | S754_nan => (0, 0, 0)
  | S754_finite true m e => (-1, - e, - Z.pos m)
  | S754_finite false m e => (1, e, Z.pos m)
  end.

Definition lex_le (p q : Z * Z * Z) : Prop :=
  let '(a, b, c) := p in
  let '(a', b', c') := q in
  a < a' \/ (a = a' /\ (b < b' \/ (b = b' /\ c <= c'))).

Definition not_nan (x : spec_float) : Prop :=
  match x with
  | S754_nan => False
  | _ => True
  end.

(** The complex conjugate. *)
Definition conjugate (c : float * float) : float * float :=
  (fst c, - snd c)%float.

(** ** Concrete inputs *)

(** The spelling of the bound name [EPS] that lets line 137 pass. *)
Definition with_EPS (G : gmap string (@gval ieee)) : gmap string (@gval ieee) :=
  <["EPS" := GFunction "slepc4py.SLEPc.EPS"]> G.

(** The module namespace with the names [EPS] and [warnings] bound as
    the imports the module lacks would bind them. *)
Definition patched : gmap string (@gval ieee) :=
  <["warnings" := GModule "warnings"]> (with_EPS module_globals).

(** The module namespace with [P_bar] and [sort_real_schur] bound. *)
Definition with_brandts (A : @matrix ieee) : gmap string (@gval ieee) :=
  <["sort_real_schur" := GFunction "sort_real_schur"]>
    (<["P_bar" := GArray A]> module_globals).

(** Bases a scripted solver hands out: two real unit vectors, one real
    unit vector, one vector with imaginary parts. *)
Definition two_columns : list (list (@complex128 ieee)) :=
  [ [ (1, 0); (0, 0) ]; [ (0, 0); (1, 0) ] ]%float.
Definition one_column : list (list (@complex128 ieee)) :=
  [ [ (1, 0); (0, 0) ] ]%float.
Definition complex_column : list (list (@complex128 ieee)) :=
  [ [ (0.5, 0.5); (0.5, -0.5) ] ]%float.

Definition diag2 : @matrix ieee := [ [1; 0]; [0; 0.5] ]%float.

(** A real matrix with the eigenvalues 1 and 0.6 +- 0.1i. *)
Definition with_pair : @matrix ieee :=
  [ [1; 0; 0]; [0; 0.6; -0.1]; [0; 0.1; 0.6] ]%float.

Definition diag3 : @matrix ieee :=
  [ [0.2; 0; 0]; [0; 1; 0]; [0; 0; 0.5] ]%float.

Definition diag5 : @matrix ieee :=
  [ [1; 0; 0; 0; 0]; [0; 0.8; 0; 0; 0]; [0; 0; 0.6; 0; 0];
    [0; 0; 0; 0.4; 0]; [0; 0; 0; 0; 0.2] ]%float.

Definition rotation : @matrix ieee := [ [0; -1]; [1; 0] ]%float.


(** * Properties *)

(** ** Sorting *)

Section SortFacts.
Context {A : Type}.
Variable lt : A -> A -> bool.

Lemma insert_by_perm (x : A) (l : list A) :
  Permutation (x :: l) (insert_by lt x l).
Proof.
  induction l as [|y l IH]; simpl; [reflexivity|].
  destruct (lt y x); [|reflexivity].
  rewrite perm_swap. apply perm_skip. exact IH.
Qed.

Lemma sort_by_perm (l : list A) : Permutation l (sort_by lt l).
Proof.
  induction l as [|x l IH]; simpl; [reflexivity|].
  rewrite <- insert_by_perm. apply perm_skip. exact IH.
Qed.

Lemma Forall_perm (Q : A -> Prop) (l l' : list A) :
  Permutation l l' -> Forall Q l -> Forall Q l'.
Proof.
  intros Hp. rewrite !List.Forall_forall. intros H x Hx.
  apply H. eapply Permutation_in; [symmetry; exact Hp | exact Hx].
Qed.

Variable le : A -> A -> Prop.
Variable good : A -> Prop.
Hypothesis lt_le : forall a b, good a -> good b -> lt a b = true -> le a b.
Hypothesis nlt_le : forall a b, good a -> good b -> lt a b = false -> le b a.
Hypothesis le_trans : forall a b c, le a b -> le b c -> le a c.

Lemma insert_by_sorted (x : A) (l : list A) :
  good x -> Forall good l -> StronglySorted le l ->
  StronglySorted le (insert_by lt x l).
Proof.
  intros Gx. induction l as [|y l IH]; simpl; intros Gl Hs.
  - constructor; constructor.
  - inversion Gl as [|? ? Gy Gl']; subst.
    inversion Hs as [|? ? Hs' Hy]; subst.
    destruct (lt y x) eqn:E.
    + constructor; [apply IH; assumption|].
      apply (Forall_perm _ (x :: l)); [apply insert_by_perm|].
      constructor; [apply lt_le; assumption | exact Hy].
    + assert (Hxy : le x y) by (apply nlt_le; assumption).
      constructor; [exact Hs|].
      constructor; [exact Hxy|].
      eapply List.Forall_impl; [|exact Hy]. intros c Hc.
      exact (le_trans _ _ _ Hxy Hc).
Qed.

Lemma sort_by_sorted (l : list A) :
  Forall good l -> StronglySorted le (sort_by lt l).
Proof.
  induction l as [|x l IH]; simpl; intros Gl; [constructor|].
  inversion Gl; subst.
  apply insert_by_sorted; [assumption | | apply IH; assumption].
  apply (Forall_perm _ l); [apply sort_by_perm | assumption].
Qed.
End SortFacts.

Section SortedFacts.
Context {A : Type}.

Lemma StronglySorted_snoc (R : A -> A -> Prop) (l : list A) (x : A) :
  StronglySorted R l -> Forall (fun y => R y x) l ->
  StronglySorted R (l ++ [x]).
Proof.
  induction 1 as [|y l Hs IH Hy]; simpl; intros Hx.
  - constructor; constructor.
  - inversion Hx; subst. constructor; [apply IH; assumption|].
    apply Forall_app. split; [exact Hy|]. constructor; [assumption|constructor].
Qed.

Lemma StronglySorted_rev (R : A -> A -> Prop) (l : list A) :
  StronglySorted R l -> StronglySorted (fun a b => R b a) (rev l).
Proof.
  induction 1 as [|y l Hs IH Hy]; simpl; [constructor|].
  apply StronglySorted_snoc; [exact IH|].
  apply Forall_rev. exact Hy.
Qed.

Lemma Forall_firstn' (Q : A -> Prop) (k : nat) (l : list A) :
  Forall Q l -> Forall Q (firstn k l).
Proof.
  intros H. revert k. induction H; intros [|k]; simpl; constructor; auto.
Qed.

Lemma StronglySorted_firstn (R : A -> A -> Prop) (k : nat) (l : list A) :
  StronglySorted R l -> StronglySorted R (firstn k l).
Proof.
  intros H. revert k. induction H as [|y l Hs IH Hy]; intros [|k]; simpl;
    try constructor; [apply IH | apply Forall_firstn'; exact Hy].
Qed.
End SortedFacts.

Lemma map_insert_by {A B} (f : A -> B) (ltA : A -> A -> bool)
  (ltB : B -> B -> bool) (x : A) (l : list A) :
  (forall a, In a l -> ltB (f a) (f x) = ltA a x) ->
  map f (insert_by ltA x l) = insert_by ltB (f x) (map f l).
Proof.
  induction l as [|y l IH]; simpl; intros H; [reflexivity|].
  rewrite (H y (or_introl eq_refl)).
  destruct (ltA y x); simpl; [|reflexivity].
  f_equal. apply IH. intros a Ha. apply H. right. exact Ha.
Qed.

Lemma map_sort_by {A B} (f : A -> B) (ltA : A -> A -> bool)
  (ltB : B -> B -> bool) (l : list A) :
  (forall a b, In a l -> In b l -> ltB (f a) (f b) = ltA a b) ->
  map f (sort_by ltA l) = sort_by ltB (map f l).
Proof.
  induction l as [|x l IH]; simpl; intros H; [reflexivity|].
  rewrite (map_insert_by f ltA ltB).
  - f_equal. apply IH. intros a b Ha Hb. apply H; right; assumption.
  - intros a Ha. apply H; [right | left; reflexivity].
    eapply Permutation_in; [symmetry; apply sort_by_perm | exact Ha].
Qed.

Lemma fancy_index_map {A} (a : list A) (d : A) (idx : list nat) :
  Forall (fun i => (i < length a)%nat) idx ->
  fancy_index a idx = Ok (map (fun i => nth i a d) idx).
Proof.
  induction 1 as [|i idx Hi _ IH]; simpl; [reflexivity|].
  destruct (nth_error a i) as [x|] eqn:E.
  - rewrite IH. simpl. do 2 f_equal.
    symmetry. apply nth_error_nth. exact E.
  - apply nth_error_None in E. lia.
Qed.

Lemma map_nth_seq_all {A} (a : list A) (d : A) :
  map (fun i => nth i a d) (seq 0 (length a)) = a.
Proof.
  apply (nth_ext _ _ d d).
  - rewrite length_map, length_seq. reflexivity.
  - intros n Hn. rewrite length_map, length_seq in Hn.
    rewrite (nth_indep _ _ (nth 0%nat a d)).
    2:{ rewrite length_map, length_seq. exact Hn. }
    rewrite (map_nth (fun i => nth i a d) (seq 0 (length a)) 0%nat n).
    rewrite seq_nth; [reflexivity | exact Hn].
Qed.

(** ** Outcomes *)

Lemma bind_Ok_inv {A B} (c : result A) (k : A -> result B) (b : B) :
  bind c k = Ok b -> exists a, c = Ok a /\ k a = Ok b.
Proof.
  destruct c as [a|e]; simpl; intros H; [eauto | discriminate].
Qed.

Lemma bind_Raise_inv {A B} (c : result A) (k : A -> result B) (e : exn) :
  bind c k = Raise e -> c = Raise e \/ exists a, c = Ok a /\ k a = Raise e.
Proof.
  destruct c as [a|e']; simpl; intros H; [right; eauto | left; congruence].
Qed.

Lemma call_not_ValueError {A} (r : ext A) (msg : string) :
  call r <> Raise (ValueError msg).
Proof. destruct r; simpl; discriminate. Qed.

Lemma split_msg_not_nan (m : Z) :
  split_msg m <> nan_top_msg /\ split_msg m <> nan_all_msg.
Proof. split; unfold split_msg; simpl; discriminate. Qed.

Lemma py_index_not_ValueError {A} (a : list A) i msg :
  py_index a i <> Raise (ValueError msg).
Proof.
  unfold py_index. cbv zeta.
  destruct (_ || _); [discriminate|].
  destruct (_ || _); [discriminate|].
  destruct (nth_error _ _); discriminate.
Qed.

Lemma fancy_index_not_ValueError {A} (a : list A) idx msg :
  fancy_index a idx <> Raise (ValueError msg).
Proof.
  induction idx as [|i idx IH]; simpl; [discriminate|].
  destruct (nth_error a i); [|discriminate].
  destruct (fancy_index a idx) as [r|e] eqn:E; simpl; [discriminate|].
  intros H. apply IH. exact H.
Qed.

Section SelectorFacts.
Context {num : NumOps}.
Variable sp : SciPy.

Lemma select_top_not_split P m z :
  select_top sp P m z <> Raise (ValueError (split_msg m)).
Proof.
  destruct (split_msg_not_nan m) as [N1 N2].
  unfold select_top. destruct (m + 1 <? shape0 P - 1).
  - destruct (eigs sp P (m + 1) z) as [evs|o]; simpl; [|discriminate].
    destruct (existsb cisnan evs); [|discriminate].
    intros H. injection H as H. congruence.
  - destruct (eigvals sp P) as [evs|o]; simpl; [|discriminate].
    destruct (existsb cisnan evs).
    { intros H. injection H as H. congruence. }
    destruct (String.eqb z "LM").
    { destruct (fancy_index evs (argsort (map cabs evs))) eqn:E; simpl;
        [discriminate|].
      intros H. eapply fancy_index_not_ValueError. rewrite E.
      f_equal. injection H as H. exact H. }
    destruct (String.eqb z "LR"); discriminate.
Qed.

Lemma check_boundary_split m top :
  check_boundary m top = Raise (ValueError (split_msg m)) <->
  exists s a b,
    top = Some s /\ py_index s (m - 1) = Ok a /\ py_index s m = Ok b
    /\ isclose a b = true.
Proof.
  unfold check_boundary. split.
  - destruct top as [s|]; simpl; [|discriminate].
    destruct (py_index s (m - 1)) as [a|e] eqn:Ea; simpl.
    2:{ intros H. exfalso. eapply py_index_not_ValueError.
        rewrite Ea. f_equal. injection H as H. exact H. }
    destruct (py_index s m) as [b|e] eqn:Eb; simpl.
    2:{ intros H. exfalso. eapply py_index_not_ValueError.
        rewrite Eb. f_equal. injection H as H. exact H. }
    destruct (isclose a b) eqn:Ec; [|discriminate].
    intros _. exists s, a, b. auto.
  - intros (s & a & b & -> & Ea & Eb & Ec). simpl.
    rewrite Ea. simpl. rewrite Eb. simpl. rewrite Ec. reflexivity.
Qed.

Lemma top_eigenvalues_Ok_inv P m z top :
  top_eigenvalues sp P m z = Ok top ->
  select_top sp P m z = Ok (Some top)
  /\ exists a b,
       py_index top (m - 1) = Ok a /\ py_index top m = Ok b
       /\ isclose a b = false.
Proof.
  unfold top_eigenvalues. intros H.
  apply bind_Ok_inv in H as (o & Hs & Hc).
  unfold check_boundary in Hc.
  apply bind_Ok_inv in Hc as (s & Hl & Hc).
  destruct o as [s'|]; simpl in Hl; [|discriminate].
  injection Hl as ->.
  apply bind_Ok_inv in Hc as (a & Ha & Hc).
  apply bind_Ok_inv in Hc as (b & Hb & Hc).
  destruct (isclose a b) eqn:Ec; [discriminate|].
  injection Hc as ->. split; [exact Hs|]. exists a, b. auto.
Qed.

(** C7: whenever the solver of the chosen path (the partial one when
    m+1 < n-1, the dense one otherwise) returns eigenvalues of which one
    is NaN, top_eigenvalues raises the ValueError that stands for
    NumericalError, whatever m and z are: the check comes right after
    the solver call, before the criterion is looked at and before any
    indexing. *)
Theorem top_eigenvalues_nan (P : matrix) (m : Z) (z : string)
  (evs : list complex128) :
  solver_output sp P m z = Done evs ->
  existsb cisnan evs = true ->
  exists e,
    top_eigenvalues sp P m z = Raise e
    /\ raised_as e NumericalError
    /\ e = ValueError (if m + 1 <? shape0 P - 1 then nan_top_msg
                       else nan_all_msg).
Proof.
  unfold solver_output, top_eigenvalues, select_top. intros Hs Hn.
  destruct (m + 1 <? shape0 P - 1); rewrite Hs; simpl; rewrite Hn; simpl;
    eexists; (split; [reflexivity|]); split; constructor.
Qed.

(** With line 50 read as the concatenation it is written to build,
    top_eigenvalues raises the ValueError of lines 50-51 exactly when
    the selection of lines 28-44 succeeded and np.isclose finds the
    entries at 0-based positions m-1 and m of the selected sequence
    close. *)
Lemma split_error_iff (P : matrix) (m : Z) (z : string) :
  top_eigenvalues sp P m z = Raise (ValueError (split_msg m)) <->
  exists top a b,
    select_top sp P m z = Ok (Some top)
    /\ py_index top (m - 1) = Ok a /\ py_index top m = Ok b
    /\ isclose a b = true.
Proof.
  unfold top_eigenvalues. split.
  - intros H. apply bind_Raise_inv in H as [H | (o & Hs & H)].
    + exfalso. exact (select_top_not_split _ _ _ H).
    + apply check_boundary_split in H as (s & a & b & -> & H).
      exists s, a, b. auto.
  - intros (top & a & b & Hs & H). rewrite Hs. simpl.
    apply check_boundary_split. exists top, a, b. auto.
Qed.
End SelectorFacts.

(** ** The dense backend *)

Section DenseFacts.
Context {num : NumOps}.
Variable sp : SciPy.

(** With a known criterion and a successful selection, the whole of
    sorted_scipy_schur is one call of schur with the predicate
    "score above the cutoff", followed by the check on sdim. *)
Lemma sorted_scipy_schur_reorder P m z top e_in e_out :
  z = "LM" \/ z = "LR" ->
  top_eigenvalues sp P m z = Ok top ->
  py_index top (m - 1) = Ok e_in ->
  py_index top m = Ok e_out ->
  sorted_scipy_schur sp P m z =
    (let! r := call (schur_sort sp P (dominant z (cutoff z e_in e_out))) in
     check_sdim m (Some r)).
Proof.
  intros Hz Ht Hi Ho. unfold sorted_scipy_schur.
  rewrite Ht. simpl. rewrite Hi. simpl. rewrite Ho. simpl.
  destruct Hz as [-> | ->]; unfold dominant, cutoff, score; simpl;
    match goal with
    | |- context [call ?c] => destruct c as [r|o]
    end; reflexivity.
Qed.

Lemma check_sdim_Some m R Q sdim :
  check_sdim m (Some (R, Q, sdim)) =
    if sdim =? m then Ok (R, Q)
    else Raise (ValueError (mismatch_msg m sdim)).
Proof. unfold check_sdim. simpl. destruct (sdim =? m); reflexivity. Qed.

(** C8: once the selection has succeeded and schur has returned
    (R, Q, sdim) for the cutoff predicate, sorted_scipy_schur raises the
    ValueError that stands for ReorderMismatchError exactly when sdim
    differs from m, and returns the pair (R, Q) when sdim equals m. *)
Theorem reorder_mismatch_iff (P : matrix) (m : Z) (z : string)
  (top : list complex128) (e_in e_out : complex128) (R Q : matrix)
  (sdim : Z) :
  z = "LM" \/ z = "LR" ->
  top_eigenvalues sp P m z = Ok top ->
  py_index top (m - 1) = Ok e_in ->
  py_index top m = Ok e_out ->
  schur_sort sp P (dominant z (cutoff z e_in e_out)) = Done (R, Q, sdim) ->
  ((exists e, sorted_scipy_schur sp P m z = Raise e
              /\ raised_as e ReorderMismatchError)
   <-> sdim <> m)
  /\ (sdim <> m ->
      sorted_scipy_schur sp P m z = Raise (ValueError (mismatch_msg m sdim)))
  /\ (sdim = m -> sorted_scipy_schur sp P m z = Ok (R, Q)).
Proof.
  intros Hz Ht Hi Ho Hs.
  rewrite (sorted_scipy_schur_reorder _ _ _ _ _ _ Hz Ht Hi Ho), Hs.
  simpl bind. rewrite check_sdim_Some.
  destruct (Z.eqb_spec sdim m) as [E|N].
  - split; [|split]; [|contradiction|reflexivity].
    split; [intros (e & H & _); discriminate | contradiction].
  - split; [|split]; [|reflexivity|contradiction].
    split; [intros _; exact N|].
    intros _. eexists. split; [reflexivity|constructor].
Qed.
End DenseFacts.

(** C4: for a known criterion and a successful selection, the dense
    backend takes the selected entries at positions m-1 and m as the two
    boundary eigenvalues, and is one call of schur with the predicate
    "score above (score(e_in) + score(e_out)) / 2" followed by the check
    on sdim.  On the diagonal matrix with entries 0.2, 1.0, 0.5, with
    m = 2 and 'LM', in IEEE double arithmetic: the Selector returns
    [1.0, 0.5, 0.2], the cutoff is 0.35, the predicate holds of 1.0 and
    0.5 and fails of 0.2, and the reordered R has 1.0 and 0.5 in its
    leading 2 by 2 block. *)
Theorem dense_cutoff :
  (forall (num : NumOps) (sp : SciPy) (P : matrix) (m : Z) (z : string)
          (top : list complex128),
      z = "LM" \/ z = "LR" ->
      top_eigenvalues sp P m z = Ok top ->
      exists e_in e_out,
        py_index top (m - 1) = Ok e_in /\ py_index top m = Ok e_out
        /\ sorted_scipy_schur sp P m z =
             (let! r :=
                call (schur_sort sp P (dominant z (cutoff z e_in e_out))) in
              check_sdim m (Some r)))
  /\ top_eigenvalues (num := ieee) diag_solver diag3 2 "LM"
     = Ok [ (1, 0); (0.5, 0); (0.2, 0) ]%float
  /\ cutoff (num := ieee) "LM" (0.5, 0)%float (0.2, 0)%float = 0.35%float
  /\ map (dominant (num := ieee) "LM" 0.35%float)
       [ (1, 0); (0.5, 0); (0.2, 0) ]%float = [ true; true; false ]
  /\ exists R Q,
       sorted_scipy_schur (num := ieee) diag_solver diag3 2 "LM"
       = Ok (R, Q)
       /\ leading_block 2 R = [ [1; 0]; [0; 0.5] ]%float.
Proof.
  split; [|split; [|split; [|split]]].
  - intros num sp P m z top Hz Ht.
    destruct (top_eigenvalues_Ok_inv sp P m z top Ht)
      as (_ & a & b & Ha & Hb & _).
    exists a, b. split; [exact Ha|]. split; [exact Hb|].
    exact (sorted_scipy_schur_reorder sp P m z top a b Hz Ht Ha Hb).
  - vm_compute. reflexivity.
  - vm_compute. reflexivity.
  - vm_compute. reflexivity.
  - eexists. eexists. split; vm_compute; reflexivity.
Qed.

Lemma dense_cutoff_witness :
  exists e_in e_out : @complex128 ieee,
    py_index [ (1, 0); (0.5, 0); (0.2, 0) ]%float (2 - 1) = Ok e_in
    /\ py_index [ (1, 0); (0.5, 0); (0.2, 0) ]%float 2 = Ok e_out
    /\ sorted_scipy_schur (num := ieee) diag_solver diag3 2 "LM" =
         (let! r :=
            call (schur_sort diag_solver diag3
                    (dominant (num := ieee) "LM"
                       (cutoff (num := ieee) "LM" e_in e_out))) in
          check_sdim 2 (Some r)).
Proof.
  apply (proj1 dense_cutoff ieee diag_solver diag3 2 "LM").
  - left. reflexivity.
  - vm_compute. reflexivity.
Defined.

Lemma top_eigenvalues_nan_witness :
  exists e,
    top_eigenvalues (num := ieee) diag_solver [ [nan] ] 1 "LR"
    = Raise e
    /\ raised_as e NumericalError
    /\ e = ValueError nan_all_msg.
Proof.
  apply (top_eigenvalues_nan (num := ieee) diag_solver
           [ [nan] ] 1 "LR" [ (nan, 0%float) ]).
  - vm_compute. reflexivity.
  - vm_compute. reflexivity.
Defined.

Lemma reorder_mismatch_iff_witness :
  ((exists e,
       sorted_scipy_schur (num := ieee) diag_solver diag3 2 "LM"
       = Raise e /\ raised_as e ReorderMismatchError)
   <-> 2 <> 2)
  /\ (2 <> 2 ->
      sorted_scipy_schur (num := ieee) diag_solver diag3 2 "LM"
      = Raise (ValueError (mismatch_msg 2 2)))
  /\ (2 = 2 ->
      sorted_scipy_schur (num := ieee) diag_solver diag3 2 "LM"
      = Ok ([ [1; 0; 0]; [0; 0.5; 0]; [0; 0; 0.2] ]%float,
            [ [0; 0; 1]; [1; 0; 0]; [0; 1; 0] ]%float)).
Proof.
  apply (reorder_mismatch_iff (num := ieee) diag_solver diag3 2 "LM"
           [ (1, 0); (0.5, 0); (0.2, 0) ]%float (0.5, 0)%float (0.2, 0)%float).
  - left. reflexivity.
  - vm_compute. reflexivity.
  - vm_compute. reflexivity.
  - vm_compute. reflexivity.
  - vm_compute. reflexivity.
Defined.

(** ** The order of the selected eigenvalues *)

Lemma map_snd_combine_eq {A B} (l : list A) (l' : list B) :
  length l = length l' -> map snd (combine l l') = l'.
Proof.
  revert l'. induction l as [|x l IH]; intros [|y l']; simpl;
    try discriminate; intros H; [reflexivity|].
  f_equal. apply IH. lia.
Qed.

Lemma py_index_in_range {A} (a : list A) (i : Z) :
  intp_min <= i <= intp_max ->
  (- Z.of_nat (length a)) <= i < Z.of_nat (length a) ->
  exists x, py_index a i = Ok x.
Proof.
  intros Hfit Hi. unfold py_index. cbv zeta.
  destruct (Z.ltb_spec i intp_min); [lia|].
  destruct (Z.ltb_spec intp_max i); [lia|]. cbn [orb].
  set (j := if i <? 0 then i + Z.of_nat (length a) else i).
  assert (Hj : 0 <= j < Z.of_nat (length a)).
  { unfold j. destruct (Z.ltb_spec i 0); lia. }
  destruct (Z.ltb_spec j 0); [lia|].
  destruct (Z.leb_spec (Z.of_nat (length a)) j); [lia|]. cbn [orb].
  destruct (nth_error a (Z.to_nat j)) as [x|] eqn:E; [eauto|].
  apply nth_error_None in E. lia.
Qed.

Lemma py_index_nth {A} (a : list A) (i : Z) (x : A) :
  0 <= i <= intp_max ->
  nth_error a (Z.to_nat i) = Some x ->
  py_index a i = Ok x.
Proof.
  intros Hi Hx. unfold py_index. cbv zeta.
  assert (Hlen : (Z.to_nat i < length a)%nat)
    by (apply nth_error_Some; congruence).
  destruct (Z.ltb_spec i intp_min); [unfold intp_min in *; lia|].
  destruct (Z.ltb_spec intp_max i); [lia|]. cbn [orb].
  destruct (Z.ltb_spec i 0); [lia|].
  destruct (Z.ltb_spec i 0); [lia|].
  destruct (Z.leb_spec (Z.of_nat (length a)) i); [lia|]. cbn [orb].
  rewrite Hx. reflexivity.
Qed.

Lemma existsb_false_Forall {A} (f : A -> bool) (l : list A) :
  existsb f l = false -> Forall (fun c => f c = false) l.
Proof.
  induction l as [|c l IH]; simpl; intros H; constructor;
    apply orb_false_elim in H; [tauto | apply IH; tauto].
Qed.

Lemma existsb_false_incl {A} (f : A -> bool) (l l' : list A) :
  incl l' l -> existsb f l = false -> existsb f l' = false.
Proof.
  intros Hi H. destruct (existsb f l') eqn:E; [|reflexivity].
  apply existsb_exists in E as (x & Hx & Hf).
  assert (Hex : existsb f l = true)
    by (apply existsb_exists; exists x; split; [apply Hi; exact Hx|exact Hf]).
  congruence.
Qed.

Lemma StronglySorted_app_l {A} (R : A -> A -> Prop) (l1 l2 : list A) :
  StronglySorted R (l1 ++ l2) -> StronglySorted R l1.
Proof.
  induction l1 as [|x l1 IH]; simpl; intros H; [constructor|].
  apply StronglySorted_inv in H as [Hs Hf]. constructor; [apply IH; exact Hs|].
  apply Forall_app in Hf. tauto.
Qed.

Section SelectionOrder.
Context {num : NumOps}.

Lemma in_decorated (key : complex128 -> float64) (evs : list complex128)
  (d : complex128) (k : float64) (i : nat) :
  In (k, i) (combine (map key evs) (seq 0 (length (map key evs)))) ->
  (i < length evs)%nat /\ k = key (nth i evs d).
Proof.
  intros H. apply (In_nth _ _ (key d, 0%nat)) in H as (j & Hj & E).
  rewrite length_combine, length_seq, length_map, Nat.min_id in Hj.
  rewrite combine_nth in E by (rewrite length_seq; reflexivity).
  injection E as E1 E2.
  rewrite length_map, seq_nth in E2 by exact Hj. simpl in E2. subst i.
  split; [exact Hj|]. rewrite <- E1. apply map_nth.
Qed.

(** Indexing with the argsort of the keys sorts the values by key. *)
Lemma argsort_gather (key : complex128 -> float64)
  (evs : list complex128) :
  fancy_index evs (argsort (map key evs))
  = Ok (sort_by (fun a b => flt (key a) (key b)) evs).
Proof.
  set (d := of_real f0). unfold argsort.
  set (ltp := fun p q : float64 * nat => flt (fst p) (fst q)).
  set (pairs := combine (map key evs) (seq 0 (length (map key evs)))).
  assert (Hin : forall p, In p pairs ->
            (snd p < length evs)%nat /\ fst p = key (nth (snd p) evs d)).
  { intros [k i] Hp. simpl. exact (in_decorated key evs d k i Hp). }
  rewrite (fancy_index_map evs d).
  2:{ rewrite List.Forall_forall. intros i Hi.
      apply in_map_iff in Hi as (p & <- & Hp).
      apply Hin. eapply Permutation_in; [symmetry; apply sort_by_perm|].
      exact Hp. }
  f_equal. rewrite map_map.
  rewrite (map_sort_by (fun p => nth (snd p) evs d) ltp
             (fun a b => flt (key a) (key b))).
  - f_equal. rewrite <- (map_map snd (fun i => nth i evs d)).
    unfold pairs. rewrite map_snd_combine_eq by (rewrite length_seq; reflexivity).
    rewrite length_map. apply map_nth_seq_all.
  - intros a b Ha Hb. unfold ltp.
    destruct (Hin a Ha) as [_ ->]. destruct (Hin b Hb) as [_ ->].
    reflexivity.
Qed.

Context {laws : NumLaws}.

Lemma flt_fle (a b : float64) : flt a b = true -> fle a b = true.
Proof. unfold flt. intros H. apply andb_prop in H. tauto. Qed.

Lemma not_flt_fle (a b : float64) :
  fisnan a = false -> fisnan b = false -> flt a b = false ->
  fle b a = true.
Proof.
  unfold flt. intros Na Nb H.
  destruct (fle b a) eqn:E; [reflexivity|].
  destruct (fle_total a b Na Nb) as [T|T]; [|congruence].
  rewrite T in H. discriminate.
Qed.

Lemma cisnan_parts (c : complex128) :
  cisnan c = false -> fisnan (creal c) = false /\ fisnan (cimag c) = false.
Proof. unfold cisnan. intros H. apply orb_false_elim in H. exact H. Qed.

Lemma no_nan_Forall (evs : list complex128) :
  existsb cisnan evs = false -> Forall (fun c => cisnan c = false) evs.
Proof.
  induction evs as [|c evs IH]; simpl; intros H; constructor;
    apply orb_false_elim in H; [tauto | apply IH; tauto].
Qed.

(** Sorting by magnitude, as 'LM' does on the dense path. *)
Lemma sort_by_cabs_sorted (evs : list complex128) :
  existsb (fun c => fisnan (cabs c)) evs = false ->
  StronglySorted (fun a b => fle (cabs a) (cabs b) = true)
    (sort_by (fun a b => flt (cabs a) (cabs b)) evs).
Proof.
  intros H.
  apply (sort_by_sorted _ _ (fun c => fisnan (cabs c) = false)).
  - intros a b _ _. apply flt_fle.
  - intros a b Ga Gb. apply not_flt_fle; assumption.
  - intros a b c. apply fle_trans.
  - apply existsb_false_Forall. exact H.
Qed.

(** np.sort, as 'LR' uses it on the dense path, leaves the real parts
    in ascending order. *)
Lemma np_sort_sorted (evs : list complex128) :
  existsb cisnan evs = false ->
  StronglySorted (fun a b => fle (creal a) (creal b) = true) (np_sort evs).
Proof.
  intros H. unfold np_sort.
  apply (sort_by_sorted _ _ (fun c => cisnan c = false)).
  - intros a b _ _. unfold clt. intros E.
    apply orb_prop in E as [E|E]; [apply flt_fle; exact E|].
    apply andb_prop in E as [E _]. unfold feq in E.
    apply andb_prop in E. tauto.
  - intros a b Ga Gb. unfold clt. intros E.
    apply orb_false_elim in E as [E _].
    apply cisnan_parts in Ga, Gb.
    apply not_flt_fle; tauto.
  - intros a b c. apply fle_trans.
  - apply no_nan_Forall. exact H.
Qed.
End SelectionOrder.

Section SelectorResult.
Context {num : NumOps} {laws : NumLaws}.
Variable sp : SciPy.

Lemma top_of_ascending (z : string) (m : Z) (evs asc : list complex128) :
  0 <= m -> m + 1 <= Z.of_nat (length evs) ->
  Permutation evs asc ->
  StronglySorted (fun a b => fle (score z a) (score z b) = true) asc ->
  exists rest,
    Z.of_nat (length (slice_to (rev asc) (m + 1))) = m + 1
    /\ Permutation evs (slice_to (rev asc) (m + 1) ++ rest)
    /\ sorted_desc z (slice_to (rev asc) (m + 1) ++ rest)
    /\ sorted_desc z (slice_to (rev asc) (m + 1)).
Proof.
  intros Hm Hl Hp Hs. unfold slice_to.
  destruct (Z.ltb_spec (m + 1) 0); [lia|].
  set (k := Z.to_nat (m + 1)).
  assert (Hd : sorted_desc z (rev asc)).
  { unfold sorted_desc. apply StronglySorted_rev in Hs. exact Hs. }
  exists (skipn k (rev asc)). split; [|split; [|split]].
  - rewrite length_firstn, length_rev, <- (Permutation_length Hp). lia.
  - rewrite firstn_skipn. rewrite Hp. apply Permutation_rev.
  - rewrite firstn_skipn. exact Hd.
  - apply StronglySorted_firstn. exact Hd.
Qed.

(** On the dense path the selection is the head of the reversed
    ascending sort of the spectrum. *)
Lemma select_top_dense (P : matrix) (m : Z) (z : string)
  (evs : list complex128) :
  z = "LM" \/ z = "LR" ->
  (m + 1 <? shape0 P - 1) = false ->
  eigvals sp P = Done evs ->
  existsb cisnan evs = false ->
  existsb (fun c => fisnan (score z c)) evs = false ->
  exists asc,
    Permutation evs asc
    /\ StronglySorted (fun a b => fle (score z a) (score z b) = true) asc
    /\ select_top sp P m z = Ok (Some (slice_to (rev asc) (m + 1))).
Proof.
  intros Hz Hb Hs Hn Hsc. unfold select_top. rewrite Hb, Hs. simpl.
  rewrite Hn. destruct Hz as [-> | ->]; simpl.
  - exists (sort_by (fun a b => flt (cabs a) (cabs b)) evs).
    split; [apply sort_by_perm|]. split.
    + apply sort_by_cabs_sorted. exact Hsc.
    + rewrite argsort_gather. reflexivity.
  - exists (np_sort evs).
    split; [apply sort_by_perm|]. split.
    + apply np_sort_sorted. exact Hn.
    + reflexivity.
Qed.

(** The check of lines 45-53 passes on the head of a descending
    arrangement of a spectrum that is separated at the boundary. *)
Lemma check_boundary_of_arrangement (z : string) (m : Z)
  (spectrum top rest : list complex128) :
  1 <= m <= intp_max ->
  Z.of_nat (length top) = m + 1 ->
  Permutation spectrum (top ++ rest) ->
  sorted_desc z (top ++ rest) ->
  boundary_separated z m spectrum ->
  check_boundary m (Some top) = Ok top.
Proof.
  intros Hm Hl Hp Hs Hsep.
  destruct (nth_error top (Z.to_nat (m - 1))) as [a|] eqn:Ea;
    [|apply nth_error_None in Ea; lia].
  destruct (nth_error top (Z.to_nat m)) as [b|] eqn:Eb;
    [|apply nth_error_None in Eb; lia].
  assert (Hc : isclose a b = false).
  { apply (Hsep (top ++ rest) a b Hp Hs).
    - rewrite nth_error_app1 by (apply nth_error_Some; congruence). exact Ea.
    - rewrite nth_error_app1 by (apply nth_error_Some; congruence). exact Eb. }
  unfold check_boundary. cbn [load_local bind].
  rewrite (py_index_nth top (m - 1) a) by (lia || exact Ea). cbn [bind].
  rewrite (py_index_nth top m b) by (lia || exact Eb). cbn [bind].
  rewrite Hc. reflexivity.
Qed.

End SelectorResult.

(** The comparison of binary64 is the order of the ranks, off NaN. *)
Lemma SFleb_rank (x y : spec_float) :
  SFleb x y = true <-> not_nan x /\ not_nan y /\ lex_le (rank x) (rank y).
Proof.
  unfold SFleb, SFcompare.
  destruct x as [sx|sx| |sx mx ex], y as [sy|sy| |sy my ey];
    try destruct sx; try destruct sy; simpl;
    try (split; [intros H; try discriminate; repeat split; lia
                | intros (Hx & Hy & H); try contradiction;
                  try reflexivity; try lia]).
  all: change (PosDef.Pos.compare_cont Eq mx my) with (mx ?= my)%positive;
       destruct (Z.compare_spec ex ey) as [He|He|He]; simpl;
       try (destruct (Pos.compare_spec mx my) as [Hm|Hm|Hm]; simpl);
       (split; [intros H; try discriminate; repeat split; lia
               | intros (Hx & Hy & H); try reflexivity; lia]).
Qed.

(** IEEE binary64 satisfies the laws. *)
Lemma ieee_laws : @NumLaws ieee.
Proof.
  constructor; simpl.
  - intros a b c. rewrite !leb_spec, !SFleb_rank.
    intros (Ha & Hb & H1) (_ & Hc & H2).
    split; [exact Ha|]. split; [exact Hc|].
    destruct (rank (Prim2SF a)) as [[? ?] ?],
      (rank (Prim2SF b)) as [[? ?] ?], (rank (Prim2SF c)) as [[? ?] ?].
    unfold lex_le in *. lia.
  - intros a b. unfold fisnan. simpl. rewrite !negb_false_iff.
    rewrite !leb_spec, !SFleb_rank. intros (Ha & _ & _) (Hb & _ & _).
    destruct (rank (Prim2SF a)) as [[a1 a2] a3],
      (rank (Prim2SF b)) as [[b1 b2] b3].
    assert (lex_le (a1, a2, a3) (b1, b2, b3)
            \/ lex_le (b1, b2, b3) (a1, a2, a3)) by (unfold lex_le; lia).
    tauto.
Qed.

(** A list without two close entries stays so under permutation, and
    its entries at different positions are not close. *)
Lemma well_separated_sorted (num : NumOps) (l : list complex128) :
  well_separated l = true <->
  StronglySorted
    (fun a b => isclose a b = false /\ isclose b a = false) l.
Proof.
  induction l as [|a l IH]; simpl.
  - split; [constructor | reflexivity].
  - rewrite andb_true_iff, IH, forallb_forall. split.
    + intros [Hf Hs]. constructor; [exact Hs|].
      apply List.Forall_forall. intros b Hb. specialize (Hf b Hb).
      apply andb_prop in Hf as [H1 H2].
      apply negb_true_iff in H1, H2. auto.
    + intros H. apply StronglySorted_inv in H as [Hs Hf].
      split; [|exact Hs]. intros b Hb.
      rewrite List.Forall_forall in Hf. destruct (Hf b Hb) as [-> ->].
      reflexivity.
Qed.

Lemma separated_perm {A} (R : A -> A -> Prop) (l l' : list A) :
  (forall a b, R a b -> R b a) ->
  Permutation l l' -> StronglySorted R l -> StronglySorted R l'.
Proof.
  intros Hsym Hp. induction Hp as [|x l l' Hp IH|x y l|l l' l'' _ IH1 _ IH2];
    intros H.
  - constructor.
  - apply StronglySorted_inv in H as [Hs Hf].
    constructor; [apply IH; exact Hs|].
    exact (Forall_perm _ _ _ Hp Hf).
  - apply StronglySorted_inv in H as [Hs Hy].
    apply StronglySorted_inv in Hs as [Hs Hx].
    inversion Hy as [|? ? Hyx Hyl]; subst.
    constructor; [constructor; assumption|].
    constructor; [apply Hsym; exact Hyx | exact Hx].
  - apply IH2, IH1, H.
Qed.

Lemma StronglySorted_nth {A} (R : A -> A -> Prop) (l : list A) (i j : nat)
  (a b : A) :
  StronglySorted R l -> (i < j)%nat ->
  nth_error l i = Some a -> nth_error l j = Some b -> R a b.
Proof.
  intros H. revert i j. induction H as [|x l Hs IH Hf]; intros i j Hij Ha Hb.
  - destruct i; discriminate.
  - destruct j as [|j]; [lia|]. simpl in Hb. destruct i as [|i].
    + simpl in Ha. injection Ha as <-.
      rewrite List.Forall_forall in Hf. apply Hf.
      eapply nth_error_In. exact Hb.
    + simpl in Ha. apply (IH i j); [lia | exact Ha | exact Hb].
Qed.

Lemma well_separated_boundary (num : NumOps) (z : string) (m : Z)
  (spectrum : list complex128) :
  1 <= m -> well_separated spectrum = true ->
  boundary_separated z m spectrum.
Proof.
  intros Hm Hw s a b Hp _ Ha Hb.
  apply well_separated_sorted in Hw.
  apply (separated_perm _ _ s) in Hw; [|tauto|exact Hp].
  apply (StronglySorted_nth _ s (Z.to_nat (m - 1)) (Z.to_nat m) a b Hw);
    [lia | exact Ha | exact Hb].
Qed.


(** ** Names, warnings and the two remaining backends *)

Lemma eff_bind_lift_Ok {A B} (a : A) (k : A -> eff B) :
  eff_bind (lift (Ok a)) k = k a.
Proof. unfold eff_bind, lift. destruct (k a). reflexivity. Qed.

Lemma eff_bind_lift_Raise {A B} (e : exn) (k : A -> eff B) :
  eff_bind (lift (Raise e)) k = ([], Raise e).
Proof. reflexivity. Qed.

Section NameFacts.
Context {num : NumOps}.

Lemma globals_schur :
  load_global module_globals "schur" = Ok (GFunction "scipy.linalg.schur").
Proof. vm_compute. reflexivity. Qed.

Lemma globals_P_bar :
  load_global module_globals "P_bar" = Raise (NameError "P_bar").
Proof. vm_compute. reflexivity. Qed.

Lemma globals_EPS :
  load_global module_globals "EPS" = Raise (NameError "EPS").
Proof. vm_compute. reflexivity. Qed.

Lemma warnings_warn_unbound (G : gmap string gval) (msg : string) :
  G !! "warnings" = None ->
  warnings_warn G msg = ([], Raise (NameError "warnings")).
Proof.
  intros H. unfold warnings_warn, load_global. rewrite H. reflexivity.
Qed.

(** In the module as it is written, the Krylov-Schur backend stops at
    line 137, or earlier inside PETSc or SLEPc: the solver is never
    run. *)
Lemma krylov_stops_before_solve (lib : SLEPcLib) (P : matrix) (m : Z)
  (z : string) :
  exists e,
    sorted_krylov_schur (Some lib) module_globals P m z = ([], Raise e)
    /\ (e = NameError "EPS" \/ exists o, e = External o).
Proof.
  unfold sorted_krylov_schur, krylov_setup.
  destruct (mat_create lib) as [M|o]; cbn [call bind];
    [|eexists; split; [reflexivity | right; eauto]].
  destruct (create_dense lib M P) as [M'|o]; cbn [call bind];
    [|eexists; split; [reflexivity | right; eauto]].
  destruct (eps_create lib) as [E|o]; cbn [call bind];
    [|eexists; split; [reflexivity | right; eauto]].
  destruct (set_operators lib E M') as [E'|o]; cbn [call bind];
    [|eexists; split; [reflexivity | right; eauto]].
  rewrite globals_EPS. cbn [bind].
  eexists; split; [reflexivity | left; reflexivity].
Qed.

(** Lines 166-188 once the solver has run: a real basis whose column
    count differs from m, or a count of converged eigenpairs that
    differs from m, leads to [warnings.warn]. *)
Lemma krylov_collect_advisory (G : gmap string gval) (lib : SLEPcLib)
  (E : eps lib) (m : Z) (vecs : list (list complex128)) :
  G !! "warnings" = None ->
  get_invariant_subspace lib E = Done vecs ->
  vecs <> [] ->
  forallb (forallb isreal) vecs = true ->
  shape1 vecs <> m
  \/ (exists nconv, get_converged lib E = Done nconv /\ nconv <> m) ->
  krylov_collect G lib E m = ([], Raise (NameError "warnings")).
Proof.
  intros HG Hv Hne Hr Hadv. unfold krylov_collect.
  rewrite Hv. cbn [call]. rewrite eff_bind_lift_Ok.
  destruct vecs as [|v vecs]; [contradiction|].
  cbn [column_stack]. rewrite eff_bind_lift_Ok.
  rewrite Hr. cbn [negb].
  destruct (Z.eqb_spec (shape1 (v :: vecs)) m) as [Heq|Hneq]; cbn [negb].
  - destruct Hadv as [Hadv | (nconv & Hc & Hn)]; [contradiction|].
    unfold eff_ret at 1. cbn [eff_bind].
    rewrite Hc. cbn [call]. rewrite eff_bind_lift_Ok.
    destruct (Z.eqb_spec nconv m) as [|_]; [contradiction|]. cbn [negb].
    rewrite (warnings_warn_unbound G _ HG). reflexivity.
  - rewrite (warnings_warn_unbound G _ HG). reflexivity.
Qed.
End NameFacts.

(** C9: the module binds neither P_bar nor sort_real_schur, and for
    every matrix, every m and whatever the libraries do, sorted_schur
    with method 'brandts' raises NameError at line 209, on the name
    P_bar, without a warning and without a result. *)
Theorem brandts_raises_NameError (num : NumOps) :
  module_globals !! "P_bar" = None
  /\ module_globals !! "sort_real_schur" = None
  /\ forall (sp : SciPy) (slepc4py : option SLEPcLib)
            (srs : matrix -> matrix -> Z -> ext (matrix * matrix * list float64))
            (P : matrix) (m : Z),
       sorted_schur sp slepc4py module_globals srs P m "brandts"
       = ([], Raise (NameError "P_bar")).
Proof.
  split; [vm_compute; reflexivity|]. split; [vm_compute; reflexivity|].
  intros sp slepc4py srs P m. unfold sorted_schur. cbn [String.eqb].
  change (String.eqb "brandts" "brandts") with true. cbn iota.
  unfold brandts. rewrite globals_schur, eff_bind_lift_Ok.
  rewrite globals_P_bar. reflexivity.
Qed.

(** C10: the module does not bind the name warnings.  For every
    namespace without it: when the Krylov-Schur backend gets as far as a
    solved problem whose real basis has a column count other than m, or
    whose count of converged eigenpairs is other than m, it raises
    NameError on warnings and returns nothing; when the 'brandts' branch
    gets as far as an accuracy diagnostic above 1.0, it does the same.
    In the module as written both functions raise a NameError (or fail
    inside PETSc/SLEPc) even earlier, so no advisory path returns a
    result. *)
Theorem advisories_raise_NameError (num : NumOps) :
  module_globals !! "warnings" = None
  /\ (forall (G : gmap string gval) (lib : SLEPcLib) (P : matrix) (m : Z)
             (z : string) (E : eps lib) (vecs : list (list complex128)),
        G !! "warnings" = None ->
        krylov_setup G lib P m z = Ok E ->
        get_invariant_subspace lib E = Done vecs ->
        vecs <> [] ->
        forallb (forallb isreal) vecs = true ->
        shape1 vecs <> m
        \/ (exists nconv, get_converged lib E = Done nconv /\ nconv <> m) ->
        sorted_krylov_schur (Some lib) G P m z
        = ([], Raise (NameError "warnings")))
  /\ (forall (G : gmap string gval) (sp : SciPy)
             (slepc4py : option SLEPcLib)
             (srs : matrix -> matrix -> Z
                    -> ext (matrix * matrix * list float64))
             (P : matrix) (m : Z) (s g : string) (A R Q Q' R' : matrix)
             (ap : list float64),
        G !! "warnings" = None ->
        G !! "schur" = Some (GFunction s) ->
        G !! "P_bar" = Some (GArray A) ->
        schur_real sp A = Done (R, Q) ->
        G !! "sort_real_schur" = Some (GFunction g) ->
        srs Q R m = Done (Q', R', ap) ->
        existsb (fun a => fgt a f1) ap = true ->
        sorted_schur sp slepc4py G srs P m "brandts"
        = ([], Raise (NameError "warnings")))
  /\ (forall (lib : SLEPcLib) (P : matrix) (m : Z) (z : string),
        exists e,
          sorted_krylov_schur (Some lib) module_globals P m z
          = ([], Raise e)
          /\ (e = NameError "EPS" \/ exists o, e = External o))
  /\ (forall (sp : SciPy) (slepc4py : option SLEPcLib)
             (srs : matrix -> matrix -> Z
                    -> ext (matrix * matrix * list float64))
             (P : matrix) (m : Z),
        sorted_schur sp slepc4py module_globals srs P m "brandts"
        = ([], Raise (NameError "P_bar"))).
Proof.
  split; [vm_compute; reflexivity|]. split; [|split; [|split]].
  - intros G lib P m z E vecs HG Hset Hv Hne Hr Hadv.
    unfold sorted_krylov_schur. rewrite Hset, eff_bind_lift_Ok.
    exact (krylov_collect_advisory G lib E m vecs HG Hv Hne Hr Hadv).
  - intros G sp slepc4py srs P m s g A R Q Q' R' ap
      HG Hs HP Hsr Hg Hcall Hap.
    unfold sorted_schur. change (String.eqb "brandts" "brandts") with true.
    cbn iota. unfold brandts, load_global.
    rewrite Hs, eff_bind_lift_Ok, HP, eff_bind_lift_Ok.
    cbn [as_callable as_array]. rewrite !eff_bind_lift_Ok.
    rewrite Hsr. cbn [call]. rewrite eff_bind_lift_Ok.
    rewrite Hg, eff_bind_lift_Ok. cbn [as_callable].
    rewrite eff_bind_lift_Ok, Hcall. cbn [call].
    rewrite eff_bind_lift_Ok, Hap.
    fold (load_global G "warnings").
    rewrite (warnings_warn_unbound G _ HG). reflexivity.
  - intros lib P m z. apply krylov_stops_before_solve.
  - intros sp slepc4py srs P m. unfold sorted_schur.
    change (String.eqb "brandts" "brandts") with true. cbn iota.
    unfold brandts. rewrite globals_schur, eff_bind_lift_Ok.
    rewrite globals_P_bar. reflexivity.
Qed.

Lemma advisories_raise_NameError_witness :
  sorted_krylov_schur (num := ieee)
    (Some (scripted_slepc two_columns 2 [])) (with_EPS module_globals)
    diag2 1 "LM"
  = ([], Raise (NameError "warnings"))
  /\ sorted_schur (num := ieee) diag_solver None
       (with_brandts diag2) rough_reorder diag2 1 "brandts"
     = ([], Raise (NameError "warnings")).
Proof.
  split.
  - apply (proj1 (proj2 (advisories_raise_NameError ieee))
             (with_EPS module_globals) (scripted_slepc two_columns 2 [])
             diag2 1 "LM" tt two_columns).
    + vm_compute. reflexivity.
    + vm_compute. reflexivity.
    + reflexivity.
    + discriminate.
    + vm_compute. reflexivity.
    + left. vm_compute. discriminate.
  - apply (proj1 (proj2 (proj2 (advisories_raise_NameError ieee)))
             (with_brandts diag2) diag_solver None rough_reorder
             diag2 1 "scipy.linalg.schur" "sort_real_schur" diag2
             diag2 [ [1; 0]; [0; 1] ]%float
             [ [1; 0]; [0; 1] ]%float diag2 [ 2; 2 ]%float).
    + vm_compute. reflexivity.
    + vm_compute. reflexivity.
    + vm_compute. reflexivity.
    + vm_compute. reflexivity.
    + vm_compute. reflexivity.
    + vm_compute. reflexivity.
    + vm_compute. reflexivity.
Defined.

(** C1: sorted_schur with method 'krylov' never returns, in any
    namespace and whatever the libraries do: the backend hands back
    three values and line 219 unpacks them into two names.  With EPS and
    warnings bound and a solver that converges exactly, the backend
    itself returns its triple and the dispatcher raises ValueError; in
    the module as written the backend has already raised NameError on
    EPS. *)
Theorem krylov_dispatch_never_returns :
  (forall (num : NumOps) (sp : SciPy) (slepc4py : option SLEPcLib)
          (G : gmap string gval)
          (srs : matrix -> matrix -> Z -> ext (matrix * matrix * list float64))
          (P : matrix) (m : Z),
      exists w e, sorted_schur sp slepc4py G srs P m "krylov" = (w, Raise e))
  /\ sorted_krylov_schur (num := ieee)
       (Some (scripted_slepc one_column 1 [ (1, 0)%float ])) patched
       diag2 1 "LM"
     = ([], Ok (one_column, [ (1, 0)%float ], [ 0%float ]))
  /\ sorted_schur (num := ieee) diag_solver
       (Some (scripted_slepc one_column 1 [ (1, 0)%float ])) patched
       identity_reorder diag2 1 "krylov"
     = ([], Raise (ValueError "too many values to unpack (expected 2)"))
  /\ sorted_schur (num := ieee) diag_solver
       (Some (scripted_slepc one_column 1 [ (1, 0)%float ])) module_globals
       identity_reorder diag2 1 "krylov"
     = ([], Raise (NameError "EPS")).
Proof.
  split; [|split; [|split]]; try (vm_compute; reflexivity).
  intros num sp slepc4py G srs P m. unfold sorted_schur.
  change (String.eqb "krylov" "brandts") with false.
  change (String.eqb "krylov" "scipy") with false.
  change (String.eqb "krylov" "krylov") with true. cbn iota.
  destruct (sorted_krylov_schur slepc4py G P m "LM")
    as [w [[[Q vals] errs]|e]]; cbn [eff_bind unpack2 lift];
    eexists; eexists; reflexivity.
Qed.

(** C5: a scripted solver whose basis has imaginary parts.  In the
    module as written sorted_krylov_schur raises NameError on EPS at
    line 137 and the check of lines 169-171 is not reached; with EPS
    bound, that check raises the TypeError that stands for
    ComplexBasisError. *)
Theorem complex_basis_run :
  sorted_krylov_schur (num := ieee)
    (Some (scripted_slepc complex_column 1 [ (0, 1)%float ])) module_globals
    rotation 1 "LM"
  = ([], Raise (NameError "EPS"))
  /\ sorted_krylov_schur (num := ieee)
       (Some (scripted_slepc complex_column 1 [ (0, 1)%float ]))
       (with_EPS module_globals) rotation 1 "LM"
     = ([], Raise (TypeError not_real_msg)).
Proof. split; vm_compute; reflexivity. Qed.

(** C6: a scripted solver whose real basis has two columns, with m = 1.
    In the module as written sorted_krylov_schur raises NameError on
    EPS; with EPS bound it raises NameError on warnings at line 178;
    with both names bound it emits the warning and returns the first
    column.  With a one-column basis and both names bound no warning is
    emitted. *)
Theorem oversize_basis_run :
  sorted_krylov_schur (num := ieee)
    (Some (scripted_slepc two_columns 1 [ (1, 0)%float ])) module_globals
    diag2 1 "LM"
  = ([], Raise (NameError "EPS"))
  /\ sorted_krylov_schur (num := ieee)
       (Some (scripted_slepc two_columns 1 [ (1, 0)%float ]))
       (with_EPS module_globals) diag2 1 "LM"
     = ([], Raise (NameError "warnings"))
  /\ sorted_krylov_schur (num := ieee)
       (Some (scripted_slepc two_columns 1 [ (1, 0)%float ])) patched
       diag2 1 "LM"
     = ([ oversize_msg ], Ok (one_column, [ (1, 0)%float ], [ 0%float ]))
  /\ sorted_krylov_schur (num := ieee)
       (Some (scripted_slepc one_column 1 [ (1, 0)%float ])) patched
       diag2 1 "LM"
     = ([], Ok (one_column, [ (1, 0)%float ], [ 0%float ])).
Proof. repeat split; vm_compute; reflexivity. Qed.

(** With petsc4py or slepc4py missing, the handler of lines 126-128
    raises TypeError while it builds the ImportError message. *)
Lemma krylov_without_slepc (num : NumOps) (G : gmap string gval)
  (P : matrix) (m : Z) (z : string) :
  sorted_krylov_schur None G P m z
  = ([], Raise (TypeError import_handler_msg)).
Proof. reflexivity. Qed.


(** * Further properties of the four functions *)

(** ** Indexing and slicing *)

Lemma py_index_out_of_range {A} (a : list A) (i : Z) :
  intp_min <= i <= intp_max ->
  Z.of_nat (length a) <= i \/ i < - Z.of_nat (length a) ->
  py_index a i
  = Raise (IndexError (out_of_bounds_msg i (Z.of_nat (length a)))).
Proof.
  intros Hfit Hi. unfold py_index. cbv zeta.
  destruct (Z.ltb_spec i intp_min); [lia|].
  destruct (Z.ltb_spec intp_max i); [lia|]. cbn [orb].
  destruct (Z.ltb_spec i 0) as [Hneg|Hpos].
  - destruct (Z.ltb_spec (i + Z.of_nat (length a)) 0); [reflexivity | lia].
  - destruct (Z.ltb_spec i 0); [lia|].
    destruct (Z.leb_spec (Z.of_nat (length a)) i); [reflexivity | lia].
Qed.

Lemma slice_to_In {A} (a : list A) (k : Z) (x : A) :
  In x (slice_to a k) -> In x a.
Proof.
  unfold slice_to.
  destruct (k <? 0); intros H;
    match type of H with
    | In _ (firstn ?n _) =>
        rewrite <- (firstn_skipn n a); apply in_or_app; left; exact H
    end.
Qed.

Section EdgeFacts.
Context {num : NumOps}.
Variable sp : SciPy.

(** The dense selection without the order: the head of the reversed
    sort of the spectrum. *)
Lemma select_top_dense_perm (P : matrix) (m : Z) (z : string)
  (evs : list complex128) :
  z = "LM" \/ z = "LR" ->
  (m + 1 <? shape0 P - 1) = false ->
  eigvals sp P = Done evs ->
  existsb cisnan evs = false ->
  exists asc,
    Permutation evs asc
    /\ select_top sp P m z = Ok (Some (slice_to (rev asc) (m + 1))).
Proof.
  intros Hz Hb Hs Hn. unfold select_top. rewrite Hb, Hs. simpl.
  rewrite Hn. destruct Hz as [-> | ->]; simpl.
  - exists (sort_by (fun a b => flt (cabs a) (cabs b)) evs).
    split; [apply sort_by_perm|]. rewrite argsort_gather. reflexivity.
  - exists (np_sort evs). split; [apply sort_by_perm | reflexivity].
Qed.

(** What a successful selection was made of. *)
Lemma select_top_Some_inv (P : matrix) (m : Z) (z : string)
  (top : list complex128) :
  select_top sp P m z = Ok (Some top) ->
  exists evs,
    solver_output sp P m z = Done evs
    /\ existsb cisnan evs = false
    /\ incl top evs
    /\ ((m + 1 <? shape0 P - 1) = false -> z = "LM" \/ z = "LR").
Proof.
  unfold select_top, solver_output.
  destruct (m + 1 <? shape0 P - 1).
  - destruct (eigs sp P (m + 1) z) as [evs|o]; simpl; [|discriminate].
    destruct (existsb cisnan evs) eqn:Hn; [discriminate|].
    intros H. injection H as <-. exists evs.
    split; [reflexivity|]. split; [exact Hn|].
    split; [apply incl_refl | discriminate].
  - destruct (eigvals sp P) as [evs|o]; simpl; [|discriminate].
    destruct (existsb cisnan evs) eqn:Hn; [discriminate|].
    destruct (String.eqb_spec z "LM") as [->|Hlm].
    + rewrite argsort_gather. simpl. intros H. injection H as <-.
      exists evs. split; [reflexivity|]. split; [exact Hn|].
      split; [|auto]. intros x Hx. apply slice_to_In, in_rev in Hx.
      eapply Permutation_in; [symmetry; apply sort_by_perm | exact Hx].
    + destruct (String.eqb_spec z "LR") as [->|Hlr]; [|discriminate].
      simpl. intros H. injection H as <-.
      exists evs. split; [reflexivity|]. split; [exact Hn|].
      split; [|auto]. intros x Hx. apply slice_to_In, in_rev in Hx.
      eapply Permutation_in; [symmetry; apply sort_by_perm | exact Hx].
Qed.

(** X1: on the dense path, after a spectrum without NaN, a criterion
    other than 'LM' and 'LR' leaves top_eigenvals unassigned, and
    line 45 raises UnboundLocalError. *)
Theorem unknown_criterion_dense (P : matrix) (m : Z) (z : string)
  (evs : list complex128) :
  z <> "LM" -> z <> "LR" ->
  (m + 1 <? shape0 P - 1) = false ->
  eigvals sp P = Done evs ->
  existsb cisnan evs = false ->
  top_eigenvalues sp P m z = Raise (UnboundLocalError "top_eigenvals").
Proof.
  intros Hlm Hlr Hb Hs Hn. unfold top_eigenvalues, select_top.
  rewrite Hb, Hs. simpl. rewrite Hn.
  apply String.eqb_neq in Hlm, Hlr. rewrite Hlm, Hlr. reflexivity.
Qed.

(** X2: when the Selector returns for a criterion other than 'LM' and
    'LR' (the partial solver accepted it), sorted_scipy_schur calls no
    Schur factorization and raises UnboundLocalError on sdim at
    line 94. *)
Theorem unknown_criterion_sdim (P : matrix) (m : Z) (z : string)
  (top : list complex128) :
  z <> "LM" -> z <> "LR" ->
  top_eigenvalues sp P m z = Ok top ->
  sorted_scipy_schur sp P m z = Raise (UnboundLocalError "sdim").
Proof.
  intros Hlm Hlr Ht.
  destruct (top_eigenvalues_Ok_inv sp P m z top Ht)
    as (_ & a & b & Ha & Hb & _).
  unfold sorted_scipy_schur. rewrite Ht. simpl. rewrite Ha. simpl.
  rewrite Hb. simpl.
  apply String.eqb_neq in Hlm, Hlr. rewrite Hlm, Hlr. reflexivity.
Qed.

(** X3: on the dense path, asking for at least as many clusters as the
    spectrum has values (n <= m, with m an index that fits 64 bits)
    ends in numpy's IndexError: the slice holds the whole spectrum, and
    the index that is out of bounds is m-1 at line 45, or m at line 46
    when m = n >= 1. *)
Theorem too_many_clusters (P : matrix) (m : Z) (z : string)
  (evs : list complex128) :
  z = "LM" \/ z = "LR" ->
  (m + 1 <? shape0 P - 1) = false ->
  eigvals sp P = Done evs ->
  existsb cisnan evs = false ->
  Z.of_nat (length evs) <= m <= intp_max ->
  top_eigenvalues sp P m z
  = Raise (IndexError
             (out_of_bounds_msg
                (if (Z.of_nat (length evs) =? m) && (0 <? m) then m
                 else m - 1)
                (Z.of_nat (length evs)))).
Proof.
  intros Hz Hb Hs Hn Hm.
  destruct (select_top_dense_perm P m z evs Hz Hb Hs Hn) as (asc & Hp & Heq).
  unfold top_eigenvalues. rewrite Heq. cbn [bind].
  unfold check_boundary. cbn [load_local bind].
  assert (Hlen : length (slice_to (rev asc) (m + 1)) = length evs).
  { unfold slice_to. destruct (Z.ltb_spec (m + 1) 0); [lia|].
    rewrite List.firstn_all2.
    - rewrite length_rev. symmetry. apply Permutation_length. exact Hp.
    - rewrite length_rev, <- (Permutation_length Hp). lia. }
  set (top := slice_to (rev asc) (m + 1)) in *.
  assert (Hmin : intp_min <= -1) by (unfold intp_min; lia).
  destruct (Z.eqb_spec (Z.of_nat (length evs)) m) as [E|N]; cbn [andb].
  - destruct (Z.ltb_spec 0 m) as [Hpos|Hzero].
    + destruct (py_index_in_range top (m - 1)) as [a ->];
        [lia | rewrite Hlen; lia|]. cbn [bind].
      rewrite (py_index_out_of_range top m) by (lia || (rewrite Hlen; lia)).
      cbn [bind]. congruence.
    + rewrite (py_index_out_of_range top (m - 1))
        by (lia || (rewrite Hlen; lia)).
      cbn [bind]. congruence.
  - rewrite (py_index_out_of_range top (m - 1))
      by (lia || (rewrite Hlen; lia)).
    cbn [bind]. congruence.
Qed.
End EdgeFacts.

(** ** What a result guarantees *)

Section ResultFacts.
Context {num : NumOps}.
Variable sp : SciPy.

(** X5: whatever top_eigenvalues returns is made of eigenvalues the
    solver of the chosen path computed, none of them NaN, and has
    entries at positions m-1 and m that np.isclose does not find
    close. *)
Theorem selector_postcondition (P : matrix) (m : Z) (z : string)
  (top : list complex128) :
  top_eigenvalues sp P m z = Ok top ->
  exists evs a b,
    solver_output sp P m z = Done evs
    /\ existsb cisnan evs = false
    /\ incl top evs
    /\ existsb cisnan top = false
    /\ py_index top (m - 1) = Ok a
    /\ py_index top m = Ok b
    /\ isclose a b = false.
Proof.
  intros Ht.
  destruct (top_eigenvalues_Ok_inv sp P m z top Ht)
    as (Hsel & a & b & Ha & Hb & Hc).
  destruct (select_top_Some_inv sp P m z top Hsel)
    as (evs & Hout & Hn & Hincl & _).
  exists evs, a, b. repeat (split; [assumption|]).
  split; [|auto].
  destruct (existsb cisnan top) eqn:E; [|reflexivity].
  apply existsb_exists in E as (x & Hx & Hnan).
  assert (Hex : existsb cisnan evs = true).
  { apply existsb_exists. exists x. split; [apply Hincl; exact Hx|exact Hnan]. }
  congruence.
Qed.

(** X6: sorted_scipy_schur returns a pair (R, Q) only for the criterion
    'LM' or 'LR', after a successful selection, and only when schur,
    called with the cutoff predicate of the two boundary eigenvalues,
    answered (R, Q, m): it never returns a factorization whose count of
    sorted eigenvalues is not m. *)
Theorem dense_postcondition (P : matrix) (m : Z) (z : string)
  (R Q : matrix) :
  sorted_scipy_schur sp P m z = Ok (R, Q) ->
  (z = "LM" \/ z = "LR")
  /\ exists top e_in e_out,
       top_eigenvalues sp P m z = Ok top
       /\ py_index top (m - 1) = Ok e_in
       /\ py_index top m = Ok e_out
       /\ isclose e_in e_out = false
       /\ schur_sort sp P (dominant z (cutoff z e_in e_out))
          = Done (R, Q, m).
Proof.
  unfold sorted_scipy_schur. intros H.
  apply bind_Ok_inv in H as (top & Ht & H).
  destruct (top_eigenvalues_Ok_inv sp P m z top Ht)
    as (_ & a & b & Ha & Hb & Hc).
  rewrite Ha, Hb in H. cbn [bind] in H.
  apply bind_Ok_inv in H as (sorted & Hs & H).
  assert (Hz : z = "LM" \/ z = "LR").
  { destruct (String.eqb_spec z "LM"); [auto|].
    destruct (String.eqb_spec z "LR"); [auto|].
    injection Hs as <-. discriminate. }
  split; [exact Hz|]. exists top, a, b.
  repeat (split; [assumption|]).
  assert (Hcall :
    (let! r := call (schur_sort sp P (dominant z (cutoff z a b))) in
     Ok (Some r)) = Ok sorted).
  { destruct Hz as [-> | ->]; exact Hs. }
  destruct (schur_sort sp P (dominant z (cutoff z a b)))
    as [[[R' Q'] sdim]|o]; [|discriminate].
  simpl in Hcall. injection Hcall as <-.
  rewrite check_sdim_Some in H.
  destruct (Z.eqb_spec sdim m) as [E|]; [|discriminate].
  injection H as E1 E2. subst. reflexivity.
Qed.

(** X7: an exception of the Selector leaves sorted_scipy_schur
    unchanged, for every criterion, and so does a failure inside schur
    after a successful selection; no retry, no other call. *)
Theorem dense_errors_propagate (P : matrix) (m : Z) (z : string) :
  (forall e, top_eigenvalues sp P m z = Raise e ->
             sorted_scipy_schur sp P m z = Raise e)
  /\ (forall top e_in e_out o,
        z = "LM" \/ z = "LR" ->
        top_eigenvalues sp P m z = Ok top ->
        py_index top (m - 1) = Ok e_in ->
        py_index top m = Ok e_out ->
        schur_sort sp P (dominant z (cutoff z e_in e_out)) = Fails o ->
        sorted_scipy_schur sp P m z = Raise (External o)).
Proof.
  split.
  - intros e He. unfold sorted_scipy_schur. rewrite He. reflexivity.
  - intros top a b o Hz Ht Ha Hb Hs.
    rewrite (sorted_scipy_schur_reorder sp P m z top a b Hz Ht Ha Hb), Hs.
    reflexivity.
Qed.
End ResultFacts.

Lemma selector_postcondition_witness :
  exists (evs : list (@complex128 ieee)) (a b : @complex128 ieee),
    solver_output diag_solver diag3 2 "LM" = Done evs
    /\ existsb cisnan evs = false
    /\ incl [ (1, 0); (0.5, 0); (0.2, 0) ]%float evs
    /\ existsb (cisnan (num := ieee)) [ (1, 0); (0.5, 0); (0.2, 0) ]%float
       = false
    /\ py_index [ (1, 0); (0.5, 0); (0.2, 0) ]%float (2 - 1) = Ok a
    /\ py_index [ (1, 0); (0.5, 0); (0.2, 0) ]%float 2 = Ok b
    /\ isclose (NumOps := ieee) a b = false.
Proof.
  apply (selector_postcondition (num := ieee) diag_solver diag3 2
           "LM").
  vm_compute. reflexivity.
Defined.

Lemma dense_postcondition_witness :
  ("LM" = "LM" \/ "LM" = "LR")
  /\ exists (top : list (@complex128 ieee)) (e_in e_out : @complex128 ieee),
       top_eigenvalues diag_solver diag3 2 "LM" = Ok top
       /\ py_index top (2 - 1) = Ok e_in
       /\ py_index top 2 = Ok e_out
       /\ isclose (NumOps := ieee) e_in e_out = false
       /\ schur_sort diag_solver diag3
            (dominant (num := ieee) "LM"
               (cutoff (num := ieee) "LM" e_in e_out))
          = Done ([ [1; 0; 0]; [0; 0.5; 0]; [0; 0; 0.2] ]%float,
                  [ [0; 0; 1]; [1; 0; 0]; [0; 1; 0] ]%float, 2).
Proof.
  apply (dense_postcondition (num := ieee) diag_solver diag3 2 "LM").
  vm_compute. reflexivity.
Defined.

Lemma dense_errors_propagate_witness :
  sorted_scipy_schur (num := ieee) diag_solver [ [nan] ] 1 "LR"
  = Raise (ValueError nan_all_msg)
  /\ sorted_scipy_schur (num := ieee)
       (scripted_scipy (num := ieee) [ (1, 0); (0.5, 0); (0.2, 0) ]%float)
       diag3 2 "LM"
     = Raise (External "scipy.linalg.schur").
Proof.
  split.
  - apply (proj1 (dense_errors_propagate (num := ieee) diag_solver
                    [ [nan] ] 1 "LR")).
    vm_compute. reflexivity.
  - apply (proj2 (dense_errors_propagate (num := ieee)
                    (scripted_scipy (num := ieee)
                       [ (1, 0); (0.5, 0); (0.2, 0) ]%float) diag3 2 "LM")
             [ (1, 0); (0.5, 0); (0.2, 0) ]%float (0.5, 0)%float
             (0.2, 0)%float "scipy.linalg.schur").
    + left. reflexivity.
    + vm_compute. reflexivity.
    + vm_compute. reflexivity.
    + vm_compute. reflexivity.
    + reflexivity.
Defined.

Lemma unknown_criterion_dense_witness :
  top_eigenvalues (num := ieee) diag_solver diag3 2 "SM"
  = Raise (UnboundLocalError "top_eigenvals").
Proof.
  apply (unknown_criterion_dense (num := ieee) diag_solver diag3 2
           "SM" [ (0.2, 0); (1, 0); (0.5, 0) ]%float).
  - discriminate.
  - discriminate.
  - vm_compute. reflexivity.
  - vm_compute. reflexivity.
  - vm_compute. reflexivity.
Defined.

Lemma unknown_criterion_sdim_witness :
  sorted_scipy_schur (num := ieee)
    (scripted_partial (num := ieee) [ (0.2, 0); (0.4, 0); (0.6, 0) ]%float)
    diag5 2 "SM"
  = Raise (UnboundLocalError "sdim").
Proof.
  apply (unknown_criterion_sdim (num := ieee)
           (scripted_partial (num := ieee)
              [ (0.2, 0); (0.4, 0); (0.6, 0) ]%float)
           diag5 2 "SM" [ (0.2, 0); (0.4, 0); (0.6, 0) ]%float).
  - discriminate.
  - discriminate.
  - vm_compute. reflexivity.
Defined.

Lemma too_many_clusters_witness :
  top_eigenvalues (num := ieee) diag_solver diag3 3 "LR"
  = Raise (IndexError (out_of_bounds_msg 3 3)).
Proof.
  apply (too_many_clusters (num := ieee) diag_solver diag3 3 "LR"
           [ (0.2, 0); (1, 0); (0.5, 0) ]%float).
  - right. reflexivity.
  - vm_compute. reflexivity.
  - vm_compute. reflexivity.
  - vm_compute. reflexivity.
  - unfold intp_max. simpl. lia.
Defined.

(** ** The dispatcher and the Krylov-Schur backend *)

Lemma fst_eff_bind {A B} (c : eff A) (k : A -> eff B) :
  fst c = [] -> (forall a, fst (k a) = []) -> fst (eff_bind c k) = [].
Proof.
  destruct c as [w [a|e]]; simpl; intros -> Hk; [|reflexivity].
  specialize (Hk a). destruct (k a) as [w' r]. simpl in *. exact Hk.
Qed.

Section DispatchFacts.
Context {num : NumOps}.
Variable sp : SciPy.
Variable slepc4py : option SLEPcLib.
Variable srs : matrix -> matrix -> Z -> ext (matrix * matrix * list float64).

Lemma warnings_warn_quiet (G : gmap string gval) (msg : string) :
  G !! "warnings" = None -> fst (warnings_warn G msg) = [].
Proof. intros H. rewrite (warnings_warn_unbound G msg H). reflexivity. Qed.

Lemma krylov_collect_quiet (G : gmap string gval) (lib : SLEPcLib)
  (E : eps lib) (m : Z) :
  G !! "warnings" = None -> fst (krylov_collect G lib E m) = [].
Proof.
  intros HG. unfold krylov_collect.
  apply fst_eff_bind; [reflexivity|]. intros vecs.
  apply fst_eff_bind; [reflexivity|]. intros X.
  destruct (negb (forallb (forallb isreal) X)); [reflexivity|].
  apply fst_eff_bind.
  { destruct (negb (shape1 X =? m));
      [apply warnings_warn_quiet; exact HG | reflexivity]. }
  intros _. apply fst_eff_bind; [reflexivity|]. intros nconv.
  apply fst_eff_bind.
  { destruct (negb (nconv =? m));
      [apply warnings_warn_quiet; exact HG | reflexivity]. }
  intros _. apply fst_eff_bind; [reflexivity|]. intros [vals errs].
  reflexivity.
Qed.

Lemma sorted_krylov_schur_quiet (G : gmap string gval) (P : matrix) (m : Z)
  (z : string) :
  G !! "warnings" = None -> fst (sorted_krylov_schur slepc4py G P m z) = [].
Proof.
  intros HG. unfold sorted_krylov_schur.
  destruct slepc4py as [lib|]; [|reflexivity].
  apply fst_eff_bind; [reflexivity|]. intros E.
  apply krylov_collect_quiet. exact HG.
Qed.

(** X8: a method name other than 'brandts', 'scipy' and 'krylov'
    raises ValueError with the message "Unknown method" followed,
    without a space, by the name; no library is called and no name is
    looked up, whatever the namespace. *)
Theorem unknown_method_raises (G : gmap string gval) (P : matrix) (m : Z)
  (method : string) :
  method <> "brandts" -> method <> "scipy" -> method <> "krylov" ->
  sorted_schur sp slepc4py G srs P m method
  = ([], Raise (ValueError ("Unknown method" ++ method)%string))
  /\ raised_as (ValueError ("Unknown method" ++ method)%string)
       UnknownMethodError.
Proof.
  intros Hb Hs Hk. unfold sorted_schur.
  apply String.eqb_neq in Hb, Hs, Hk. rewrite Hb, Hs, Hk.
  split; [reflexivity | constructor].
Qed.


(** X10: in a namespace that does not bind warnings, neither the
    backend nor the dispatcher ever emits a warning, for any method and
    whatever the libraries answer. *)
Theorem quiet_without_warnings (G : gmap string gval) (P : matrix) (m : Z) :
  G !! "warnings" = None ->
  (forall z, fst (sorted_krylov_schur slepc4py G P m z) = [])
  /\ (forall method, fst (sorted_schur sp slepc4py G srs P m method) = []).
Proof.
  intros HG. split.
  - intros z. apply sorted_krylov_schur_quiet. exact HG.
  - intros method. unfold sorted_schur.
    destruct (String.eqb method "brandts").
    { unfold brandts.
      apply fst_eff_bind; [reflexivity|]. intros f.
      apply fst_eff_bind; [reflexivity|]. intros Pbar.
      apply fst_eff_bind; [reflexivity|]. intros _.
      apply fst_eff_bind; [reflexivity|]. intros A.
      apply fst_eff_bind; [reflexivity|]. intros [R Q].
      apply fst_eff_bind; [reflexivity|]. intros g.
      apply fst_eff_bind; [reflexivity|]. intros _.
      apply fst_eff_bind; [reflexivity|]. intros [[Q' R'] ap].
      apply fst_eff_bind; [|reflexivity].
      destruct (existsb (fun a => fgt a f1) ap);
        [apply warnings_warn_quiet; exact HG | reflexivity]. }
    destruct (String.eqb method "scipy").
    { apply fst_eff_bind; [reflexivity|]. intros [R Q].
      apply fst_eff_bind; [reflexivity|]. intros [R' Q']. reflexivity. }
    destruct (String.eqb method "krylov"); [|reflexivity].
    apply fst_eff_bind; [apply sorted_krylov_schur_quiet; exact HG|].
    intros [[Q vals] errs].
    apply fst_eff_bind; [reflexivity|]. intros [R' Q']. reflexivity.
Qed.

(** X11: in the module as it is written, sorted_schur returns a result
    only for the method 'scipy', and that result is the pair of
    sorted_scipy_schur(P, m, 'LM'), without a warning. *)
Theorem only_scipy_returns (P : matrix) (m : Z) (method : string)
  (w : list string) (r : pyobj * pyobj) :
  sorted_schur sp slepc4py module_globals srs P m method = (w, Ok r) ->
  method = "scipy" /\ w = []
  /\ exists R Q,
       r = (ObjMatrix R, ObjMatrix Q)
       /\ sorted_scipy_schur sp P m "LM" = Ok (R, Q).
Proof.
  unfold sorted_schur.
  destruct (String.eqb_spec method "brandts") as [->|_].
  { unfold brandts. rewrite globals_schur, eff_bind_lift_Ok.
    rewrite globals_P_bar. discriminate. }
  destruct (String.eqb_spec method "scipy") as [->|_].
  { destruct (sorted_scipy_schur sp P m "LM") as [[R Q]|e]; simpl;
      [|discriminate].
    intros H. injection H as <- <-. eauto 6. }
  destruct (String.eqb_spec method "krylov") as [->|_]; [|discriminate].
  destruct (sorted_krylov_schur slepc4py module_globals P m "LM")
    as [w' [[[Q vals] errs]|e]]; simpl; discriminate.
Qed.

(** X12: in the module as it is written, the method 'krylov' always
    raises, without a warning.  When petsc4py or slepc4py is not
    installed, the handler of lines 126-128 raises TypeError while it
    adds the caught exception to a string; otherwise the call raises
    NameError on EPS at line 137, unless PETSc or SLEPc failed in one of
    the four calls before it. *)
Theorem krylov_method_outcomes (P : matrix) (m : Z) :
  (slepc4py = None ->
   sorted_schur sp slepc4py module_globals srs P m "krylov"
   = ([], Raise (TypeError import_handler_msg)))
  /\ (forall lib, slepc4py = Some lib ->
      exists e,
        sorted_schur sp slepc4py module_globals srs P m "krylov"
        = ([], Raise e)
        /\ (e = NameError "EPS" \/ exists o, e = External o)).
Proof.
  unfold sorted_schur.
  change (String.eqb "krylov" "brandts") with false.
  change (String.eqb "krylov" "scipy") with false.
  change (String.eqb "krylov" "krylov") with true. cbn iota.
  split.
  - intros ->. reflexivity.
  - intros lib ->.
    destruct (krylov_stops_before_solve lib P m "LM") as (e & -> & He).
    exists e. split; [reflexivity | exact He].
Qed.
End DispatchFacts.

Lemma unknown_method_raises_witness :
  sorted_schur (num := ieee) diag_solver None module_globals
    identity_reorder diag3 2 "arpack"
  = ([], Raise (ValueError ("Unknown method" ++ "arpack")%string))
  /\ raised_as (ValueError ("Unknown method" ++ "arpack")%string)
       UnknownMethodError.
Proof.
  apply (unknown_method_raises (num := ieee) diag_solver None
           identity_reorder module_globals diag3 2 "arpack");
    discriminate.
Defined.

Lemma quiet_without_warnings_witness :
  (forall z,
      fst (sorted_krylov_schur (num := ieee)
             (Some (scripted_slepc two_columns 3 [])) (with_EPS module_globals)
             diag2 1 z) = [])
  /\ (forall method,
        fst (sorted_schur (num := ieee) diag_solver
               (Some (scripted_slepc two_columns 3 []))
               (with_EPS module_globals) identity_reorder diag2 1 method)
        = []).
Proof.
  apply (quiet_without_warnings (num := ieee) diag_solver
           (Some (scripted_slepc two_columns 3 [])) identity_reorder
           (with_EPS module_globals) diag2 1).
  vm_compute. reflexivity.
Defined.

Lemma only_scipy_returns_witness :
  "scipy" = "scipy" /\ @nil string = []
  /\ exists R Q : @matrix ieee,
       (ObjMatrix (num := ieee)
          [ [1; 0; 0]; [0; 0.5; 0]; [0; 0; 0.2] ]%float,
        ObjMatrix (num := ieee)
          [ [0; 0; 1]; [1; 0; 0]; [0; 1; 0] ]%float)
       = (ObjMatrix R, ObjMatrix Q)
       /\ sorted_scipy_schur diag_solver diag3 2 "LM" = Ok (R, Q).
Proof.
  apply (only_scipy_returns (num := ieee) diag_solver None
           identity_reorder diag3 2 "scipy").
  vm_compute. reflexivity.
Defined.

Lemma krylov_method_outcomes_witness :
  sorted_schur (num := ieee) diag_solver None module_globals
    identity_reorder diag2 1 "krylov"
  = ([], Raise (TypeError import_handler_msg))
  /\ exists e,
       sorted_schur (num := ieee) diag_solver
         (Some (scripted_slepc one_column 1 [ (1, 0)%float ]))
         module_globals identity_reorder diag2 1 "krylov"
       = ([], Raise e)
       /\ (e = NameError "EPS" \/ exists o, e = External o).
Proof.
  split.
  - apply (proj1 (krylov_method_outcomes (num := ieee) diag_solver None
                    identity_reorder diag2 1)).
    reflexivity.
  - apply (proj2 (krylov_method_outcomes (num := ieee) diag_solver
                    (Some (scripted_slepc one_column 1 [ (1, 0)%float ]))
                    identity_reorder diag2 1)
             (scripted_slepc one_column 1 [ (1, 0)%float ])).
    reflexivity.
Defined.

Section KrylovFacts.
Context {num : NumOps}.

Lemma warnings_warn_bound (G : gmap string gval) (msg : string) :
  G !! "warnings" = Some (GModule "warnings") ->
  warnings_warn G msg = ([msg], Ok tt).
Proof.
  intros H. unfold warnings_warn, load_global. rewrite H. reflexivity.
Qed.

Lemma collect_eigenpairs_all (lib : SLEPcLib) (E : eps lib)
  (f : Z -> complex128) (g : Z -> float64) (idx : list Z)
  (vals : list complex128) (errs : list float64) :
  (forall i, In i idx ->
     get_eigenvalue lib E i = Done (f i)
     /\ compute_error lib E i = Done (g i)) ->
  collect_eigenpairs lib E idx vals errs
  = Ok (vals ++ map f idx, errs ++ map g idx).
Proof.
  revert vals errs. induction idx as [|i idx IH]; intros vals errs H; simpl.
  - rewrite !app_nil_r. reflexivity.
  - destruct (H i (or_introl eq_refl)) as [-> ->]. simpl.
    rewrite IH by (intros j Hj; apply H; right; exact Hj).
    rewrite <- !app_assoc. reflexivity.
Qed.

Lemma collect_eigenpairs_first_failure (lib : SLEPcLib) (E : eps lib)
  (f : Z -> complex128) (g : Z -> float64) (before after : list Z)
  (i : Z) (o : string) (vals : list complex128) (errs : list float64) :
  (forall j, In j before ->
     get_eigenvalue lib E j = Done (f j)
     /\ compute_error lib E j = Done (g j)) ->
  get_eigenvalue lib E i = Fails o ->
  collect_eigenpairs lib E (before ++ i :: after) vals errs
  = Raise (External o).
Proof.
  revert vals errs.
  induction before as [|j before IH]; intros vals errs H Hi; simpl.
  - rewrite Hi. reflexivity.
  - destruct (H j (or_introl eq_refl)) as [-> ->]. simpl.
    apply IH; [|exact Hi]. intros k Hk. apply H. right. exact Hk.
Qed.

(** X13: the loop of lines 190-198 over range(nconv), when SLEPc
    answers every index, yields the eigenvalues and the error estimates
    of the indices 0 .. nconv-1 in that order, max(nconv, 0) of each;
    when getEigenvalue fails at some index after answering all earlier
    ones, the failure leaves the loop unchanged. *)
Theorem collected_eigenpairs (lib : SLEPcLib) (E : eps lib) (nconv : Z)
  (f : Z -> complex128) (g : Z -> float64) :
  ((forall i, 0 <= i < nconv ->
      get_eigenvalue lib E i = Done (f i)
      /\ compute_error lib E i = Done (g i)) ->
   collect_eigenpairs lib E (py_range nconv) [] []
   = Ok (map f (py_range nconv), map g (py_range nconv))
   /\ length (map f (py_range nconv)) = Z.to_nat nconv
   /\ length (map g (py_range nconv)) = Z.to_nat nconv
   /\ forall k, (k < Z.to_nat nconv)%nat ->
        nth_error (map f (py_range nconv)) k = Some (f (Z.of_nat k)))
  /\ (forall i o, 0 <= i < nconv ->
        (forall j, 0 <= j < i ->
           get_eigenvalue lib E j = Done (f j)
           /\ compute_error lib E j = Done (g j)) ->
        get_eigenvalue lib E i = Fails o ->
        collect_eigenpairs lib E (py_range nconv) [] []
        = Raise (External o)).
Proof.
  assert (Hin : forall i, In i (py_range nconv) <-> 0 <= i < nconv).
  { intros i. unfold py_range. rewrite in_map_iff. split.
    - intros (k & <- & Hk). apply in_seq in Hk. lia.
    - intros Hi. exists (Z.to_nat i). split; [lia|]. apply in_seq. lia. }
  split.
  - intros H. split; [|split; [|split]].
    + apply (collect_eigenpairs_all lib E f g (py_range nconv) [] []).
      intros i Hi. apply H, Hin, Hi.
    + unfold py_range. rewrite !length_map, length_seq. reflexivity.
    + unfold py_range. rewrite !length_map, length_seq. reflexivity.
    + intros k Hk. unfold py_range. rewrite map_map.
      rewrite nth_error_map.
      rewrite (nth_error_nth' _ 0%nat) by (rewrite length_seq; exact Hk).
      rewrite seq_nth by exact Hk. reflexivity.
  - intros i o Hi Hbefore Hfail.
    assert (Hsplit : py_range nconv
              = map Z.of_nat (seq 0 (Z.to_nat i))
                ++ i :: map Z.of_nat (seq (S (Z.to_nat i))
                                        (Z.to_nat nconv - S (Z.to_nat i)))).
    { unfold py_range.
      replace (Z.to_nat nconv)
        with (Z.to_nat i + S (Z.to_nat nconv - S (Z.to_nat i)))%nat by lia.
      rewrite seq_app, map_app. simpl.
      replace (Z.to_nat i + S (Z.to_nat nconv - S (Z.to_nat i))
               - S (Z.to_nat i))%nat
        with (Z.to_nat nconv - S (Z.to_nat i))%nat by lia.
      rewrite Z2Nat.id by lia. reflexivity. }
    rewrite Hsplit.
    apply (collect_eigenpairs_first_failure lib E f g); [|exact Hfail].
    intros j Hj. apply Hbefore.
    apply in_map_iff in Hj as (k & <- & Hk). apply in_seq in Hk. lia.
Qed.
End KrylovFacts.

Lemma eff_bind_pair_Ok {A B} (w : list string) (a : A) (k : A -> eff B) :
  eff_bind (w, Ok a) k = (w ++ fst (k a), snd (k a)).
Proof. unfold eff_bind. destruct (k a). reflexivity. Qed.

Lemma in_py_range (n i : Z) : In i (py_range n) <-> 0 <= i < n.
Proof.
  unfold py_range. rewrite in_map_iff. split.
  - intros (k & <- & Hk). apply in_seq in Hk. lia.
  - intros Hi. exists (Z.to_nat i). split; [lia|]. apply in_seq. lia.
Qed.

Section KrylovResult.
Context {num : NumOps}.
Variable G : gmap string gval.
Variable lib : SLEPcLib.

(** X14: in any namespace in which the solver set-up of lines 130-159
    succeeds, a basis with an entry whose imaginary part is not zero
    makes sorted_krylov_schur raise the TypeError of lines 169-171,
    before the column count and the convergence count are looked at, so
    without a warning. *)
Theorem complex_basis_raises (P : matrix) (m : Z) (z : string)
  (E : eps lib) (vecs : list (list complex128)) :
  krylov_setup G lib P m z = Ok E ->
  get_invariant_subspace lib E = Done vecs ->
  vecs <> [] ->
  forallb (forallb isreal) vecs = false ->
  sorted_krylov_schur (Some lib) G P m z
  = ([], Raise (TypeError not_real_msg))
  /\ raised_as (TypeError not_real_msg) ComplexBasisError.
Proof.
  intros Hset Hv Hne Hr. split; [|constructor].
  unfold sorted_krylov_schur. rewrite Hset, eff_bind_lift_Ok.
  unfold krylov_collect. rewrite Hv. cbn [call]. rewrite eff_bind_lift_Ok.
  destruct vecs as [|v vecs]; [contradiction|].
  cbn [column_stack]. rewrite eff_bind_lift_Ok, Hr. reflexivity.
Qed.

(** X15: in a namespace that binds warnings to the warnings module and
    in which the solver set-up succeeds, with a real basis and a SLEPc
    that answers every converged index, sorted_krylov_schur returns the
    columns X[:, :m], the nconv eigenvalues and their error estimates.
    It first warns that the basis is too large when the column count is
    not m (also when it is smaller), then that the counts differ when
    nconv is not m; neither warning changes the result.  For m >= 0 the
    returned basis has min(m, columns) columns. *)
Theorem krylov_result (P : matrix) (m : Z) (z : string) (E : eps lib)
  (vecs : list (list complex128)) (nconv : Z)
  (f : Z -> complex128) (g : Z -> float64) :
  G !! "warnings" = Some (GModule "warnings") ->
  krylov_setup G lib P m z = Ok E ->
  get_invariant_subspace lib E = Done vecs ->
  vecs <> [] ->
  forallb (forallb isreal) vecs = true ->
  get_converged lib E = Done nconv ->
  (forall i, 0 <= i < nconv ->
     get_eigenvalue lib E i = Done (f i)
     /\ compute_error lib E i = Done (g i)) ->
  sorted_krylov_schur (Some lib) G P m z
  = ((if shape1 vecs =? m then [] else [oversize_msg])
     ++ (if nconv =? m then [] else [nconv_msg nconv m]),
     Ok (slice_to vecs m, map f (py_range nconv), map g (py_range nconv)))
  /\ (0 <= m ->
      length (slice_to vecs m) = Nat.min (Z.to_nat m) (length vecs)).
Proof.
  intros HG Hset Hv Hne Hr Hc Hall. split.
  - unfold sorted_krylov_schur. rewrite Hset, eff_bind_lift_Ok.
    unfold krylov_collect. rewrite Hv. cbn [call]. rewrite eff_bind_lift_Ok.
    destruct vecs as [|v vecs']; [contradiction|].
    cbn [column_stack]. rewrite eff_bind_lift_Ok, Hr. cbn [negb].
    assert (Hloop : collect_eigenpairs lib E (py_range nconv) [] []
                    = Ok (map f (py_range nconv), map g (py_range nconv))).
    { apply (collect_eigenpairs_all lib E f g (py_range nconv) [] []).
      intros i Hi. apply Hall, in_py_range, Hi. }
    destruct (shape1 (v :: vecs') =? m); cbn [negb];
      [unfold eff_ret at 1 | rewrite (warnings_warn_bound G _ HG)];
      rewrite eff_bind_pair_Ok, Hc; cbn [call];
      rewrite !eff_bind_lift_Ok;
      (destruct (nconv =? m); cbn [negb];
       [unfold eff_ret at 1 | rewrite (warnings_warn_bound G _ HG)];
       rewrite !eff_bind_pair_Ok, Hloop, !eff_bind_lift_Ok;
       reflexivity).
  - intros Hm. unfold slice_to.
    destruct (Z.ltb_spec m 0); [lia|]. apply length_firstn.
Qed.
End KrylovResult.

Lemma collected_eigenpairs_witness :
  collect_eigenpairs (num := ieee)
    (scripted_slepc two_columns 2 [ (1, 0); (0.5, 0) ]%float) tt
    (py_range 2) [] []
  = Ok (map (fun i => nth (Z.to_nat i) [ (1, 0); (0.5, 0) ]%float
                        (of_real (NumOps := ieee) f0)) (py_range 2),
        map (fun _ => f0 (NumOps := ieee)) (py_range 2))
  /\ length (map (fun i => nth (Z.to_nat i) [ (1, 0); (0.5, 0) ]%float
                             (of_real (NumOps := ieee) f0)) (py_range 2))
     = Z.to_nat 2
  /\ length (map (fun _ : Z => f0 (NumOps := ieee)) (py_range 2))
     = Z.to_nat 2
  /\ forall k, (k < Z.to_nat 2)%nat ->
       nth_error
         (map (fun i => nth (Z.to_nat i) [ (1, 0); (0.5, 0) ]%float
                          (of_real (NumOps := ieee) f0)) (py_range 2)) k
       = Some (nth (Z.to_nat (Z.of_nat k)) [ (1, 0); (0.5, 0) ]%float
                 (of_real (NumOps := ieee) f0)).
Proof.
  apply (proj1 (collected_eigenpairs (num := ieee)
                  (scripted_slepc two_columns 2 [ (1, 0); (0.5, 0) ]%float)
                  tt 2
                  (fun i => nth (Z.to_nat i) [ (1, 0); (0.5, 0) ]%float
                              (of_real (NumOps := ieee) f0))
                  (fun _ => f0 (NumOps := ieee)))).
  intros i _. split; reflexivity.
Defined.

Lemma complex_basis_raises_witness :
  sorted_krylov_schur (num := ieee)
    (Some (scripted_slepc complex_column 1 [ (0, 1)%float ]))
    (with_EPS module_globals) rotation 1 "LM"
  = ([], Raise (TypeError not_real_msg))
  /\ raised_as (TypeError not_real_msg) ComplexBasisError.
Proof.
  apply (complex_basis_raises (num := ieee) (with_EPS module_globals)
           (scripted_slepc complex_column 1 [ (0, 1)%float ])
           rotation 1 "LM" tt complex_column).
  - vm_compute. reflexivity.
  - reflexivity.
  - discriminate.
  - vm_compute. reflexivity.
Defined.

Lemma krylov_result_witness :
  sorted_krylov_schur (num := ieee)
    (Some (scripted_slepc two_columns 2 [ (1, 0); (0.5, 0) ]%float))
    patched diag2 1 "LM"
  = ((if shape1 two_columns =? 1 then [] else [ oversize_msg ])
     ++ (if 2 =? 1 then [] else [ nconv_msg 2 1 ]),
     Ok (slice_to two_columns 1,
         map (fun i => nth (Z.to_nat i) [ (1, 0); (0.5, 0) ]%float
                         (of_real (NumOps := ieee) f0)) (py_range 2),
         map (fun _ => f0 (NumOps := ieee)) (py_range 2)))
  /\ (0 <= 1 ->
      length (slice_to two_columns 1)
      = Nat.min (Z.to_nat 1) (length two_columns)).
Proof.
  apply (krylov_result (num := ieee) patched
           (scripted_slepc two_columns 2 [ (1, 0); (0.5, 0) ]%float)
           diag2 1 "LM" tt two_columns 2
           (fun i => nth (Z.to_nat i) [ (1, 0); (0.5, 0) ]%float
                       (of_real (NumOps := ieee) f0))
           (fun _ => f0 (NumOps := ieee))).
  - vm_compute. reflexivity.
  - vm_compute. reflexivity.
  - reflexivity.
  - discriminate.
  - vm_compute. reflexivity.
  - reflexivity.
  - intros i _. split; reflexivity.
Defined.
